(** * The markdown extension's activation coordinator

    A shallow embedding of [extensions/markdown/src/extension.ts]: the
    [activate] routine, the command handlers it registers and the four
    event listeners, over an explicit model of the editor host.

    The coordinator is glue code.  Every call it makes into the host or
    into a collaborator module is recorded in a call log, and the host's
    answers are taken from a [Host] record, so that statements about what
    the coordinator calls, in which order and with which arguments can be
    made for every host. *)

From Stdlib Require Import String Ascii List Bool ZArith QArith Qround Lia.
Import ListNotations.
Close Scope Q_scope.
Open Scope string_scope.
Open Scope list_scope.

Set Implicit Arguments.
Set Warnings "-register-all".

(** ** JavaScript values *)

(** A JavaScript number.  Every finite double is a rational, and
    [Math.floor] of a finite double is representable, so the finite
    numbers are embedded in [Q]. *)
Inductive number : Type :=
| NaN
| PosInf
| NegInf
| Fin (q : Q).

Definition Math_floor (x : number) : number :=
  match x with
  | Fin q => Fin (inject_Z (Qfloor q))
  | _ => x
  end.

Definition isNaN (x : number) : bool :=
  match x with
  | NaN => true
  | _ => false
  end.

Definition num (z : Z) : number := Fin (inject_Z z).

(** Untyped data: manifest contents ([packageJSON]) and the [exports]
    of another extension have type [any] in the source. *)
Inductive JsValue : Type :=
| VUndefined
| VNull
| VBool (b : bool)
| VNum (n : number)
| VStr (s : string)
| VArr (items : list JsValue)
| VObj (props : list (string * JsValue))
| VFun (name : string).

Definition nonempty (s : string) : bool :=
  match s with
  | EmptyString => false
  | String _ _ => true
  end.

(** The truthiness test behind [if (v)], [!v] and [v && w]. *)
Definition truthy (v : JsValue) : bool :=
  match v with
  | VUndefined | VNull => false
  | VBool b => b
  | VNum NaN => false
  | VNum (Fin q) => negb (Qeq_bool q 0)
  | VNum _ => true
  | VStr s => nonempty s
  | VArr _ | VObj _ | VFun _ => true
  end.

Definition Array_isArray (v : JsValue) : bool :=
  match v with
  | VArr _ => true
  | _ => false
  end.

(** ** Exceptions and results *)

Inductive Exn : Type :=
| TypeError (msg : string)
| URIError (msg : string)
| HostError (msg : string).

Inductive Res (A : Type) : Type :=
| Ok (a : A)
| Throw (e : Exn).

Arguments Ok {A} a.
Arguments Throw {A} e.

Definition res_bind {A B} (r : Res A) (f : A -> Res B) : Res B :=
  match r with
  | Ok a => f a
  | Throw e => Throw e
  end.

Fixpoint lookup_prop (props : list (string * JsValue)) (key : string) : JsValue :=
  match props with
  | [] => VUndefined
  | (k, v) :: rest => if String.eqb k key then v else lookup_prop rest key
  end.

(** Property read [v[key]] for the keys the coordinator reads
    ([contributes], the three [markdown.*] keys, [name], [version],
    [aiKey], [extendMarkdownIt]); none of them is a prototype member, so
    on anything but an object the read yields [undefined], and on
    [null] and [undefined] it throws. *)
Definition get_prop (v : JsValue) (key : string) : Res JsValue :=
  match v with
  | VUndefined | VNull => Throw (TypeError "Cannot read property of null or undefined")
  | VObj props => Ok (lookup_prop props key)
  | _ => Ok VUndefined
  end.

(** ** Host data *)

Record Uri : Type := mkUri {
  scheme : string;
  authority : string;
  path : string;
  query : string;
  fragment : string
}.

Record TextDocument : Type := mkTextDocument {
  uri : Uri;
  languageId : string
}.

Record TextEditor : Type := mkTextEditor {
  document : TextDocument;
  viewColumn : nat
}.

Record Position : Type := mkPosition {
  line : number;
  character : number
}.

(** [x < 0] on numbers; NaN compares false with everything. *)
Definition negative (x : number) : bool :=
  match x with
  | NegInf => true
  | Fin q => negb (Qle_bool 0 q)
  | _ => false
  end.

(** [new vscode.Position(line, character)]: the constructor rejects a
    negative line and a negative character as illegal arguments. *)
Definition new_Position (l c : number) : Res Position :=
  if negative l
  then Throw (HostError "Illegal argument: line must be non-negative")
  else if negative c
  then Throw (HostError "Illegal argument: character must be non-negative")
  else Ok (mkPosition l c).

Record Selection : Type := mkSelection {
  anchor : Position;
  active : Position
}.

Record Range : Type := mkRange {
  startLine : number;
  startCharacter : number;
  endLine : number;
  endCharacter : number
}.

Inductive TextEditorRevealType : Type :=
| Default
| InCenter
| InCenterIfOutsideViewport
| AtTop.

Record Extension : Type := mkExtension {
  id : string;
  extensionPath : string;
  packageJSON : JsValue
}.

Record IPackageInfo : Type := mkPackageInfo {
  name : JsValue;
  version : JsValue;
  aiKey : JsValue
}.

Record OpenDocumentLinkArgs : Type := mkOpenDocumentLinkArgs {
  args_path : string;
  args_fragment : string
}.

Record TextEditorSelectionChangeEvent : Type := mkSelectionChangeEvent {
  textEditor : TextEditor;
  selections : list Selection
}.

(** The host commands the coordinator executes. *)
Inductive Command : Type :=
| revealLine (lineNumber : number) (at_ : string)
| vscode_open (resource : Uri)
| htmlPreview_postMessage (preview : Uri) (msg_line : number).

Definition command_id (c : Command) : string :=
  match c with
  | revealLine _ _ => "revealLine"
  | vscode_open _ => "vscode.open"
  | htmlPreview_postMessage _ _ => "_workbench.htmlPreview.postMessage"
  end.

(** What the host hands back for disposal on deactivation. *)
Inductive Disposable : Type :=
| DTelemetryReporter (info : IPackageInfo)
| DContentProviderRegistration
| DSymbolsProviderRegistration
| DLinkProviderRegistration
| DCommandManager
| DCommand (command : string)
| DListener (event : string).

(** Every call into the host or into a collaborator module. *)
Inductive Call : Type :=
| CNew (class : string)
| CNewTelemetryReporter (info : IPackageInfo)
| CRegisterTextDocumentContentProvider (sch : string)
| CRegisterDocumentSymbolProvider (language : string)
| CRegisterDocumentLinkProvider (language : string)
| CCommandManagerRegister (command : string)
| CRegisterCommand (command : string)
| CListen (event : string)
| CAddStyle (resource : Uri)
| CAddScript (resource : Uri)
| CActivate (extension : string)
| CAddPlugin (extension : string)
| COpenTextDocument (resource : Uri)
| CShowTextDocument (doc : TextDocument)
| CExecuteCommand (c : Command)
| CTocLookup (doc : TextDocument) (anchor_name : string)
| CRevealRange (editor : TextEditor) (range : Range) (how : TextEditorRevealType)
| CSetSelection (editor : TextEditor) (sel : Selection)
| CUpdate (preview : Uri)
| CLoggerLog (message : string) (markdownFile : string)
| CLoggerUpdateConfiguration
| CUpdateConfiguration
| CShowSecuritySelector (resource : Uri)
| CShowWarningMessage (message : string).

(** ** The host

    [W] is the host's own state (open documents, the active editor, what
    the collaborators hold).  Calls that the host documents as failing,
    or that the source guards, answer with a [Res]; every other call only
    moves the world, through [notify]. *)
Record Host (W : Type) : Type := mkHost {
  Uri_parse : JsValue -> Res Uri;
  Uri_file : string -> Uri;
  Uri_fsPath : Uri -> string;
  Uri_toString : Uri -> string;
  path_join : string -> string -> string;
  path_extname : string -> string;
  decodeURIComponent : string -> Res string;
  localize : string -> string -> string -> string;
  isMarkdownFile : TextDocument -> bool;
  getMarkdownUri : Uri -> Uri;
  extensions_all : W -> list Extension;
  extensions_getExtension : string -> W -> option Extension;
  extension_exports : Extension -> W -> JsValue;
  activeTextEditor : W -> option TextEditor;
  openTextDocument : Uri -> W -> Res TextDocument * W;
  showTextDocument : TextDocument -> W -> Res (option TextEditor) * W;
  executeCommand : Command -> W -> Res unit * W;
  toc_lookup : TextDocument -> string -> W -> Res number * W;
  addStyle : Uri -> W -> Res unit * W;
  addScript : Uri -> W -> Res unit * W;
  extension_activate : Extension -> W -> Res unit * W;
  notify : Call -> W -> W
}.

Arguments mkHost {W}.

(** ** The coordinator's monad

    Besides the host's world the coordinator owns the subscription list
    of its extension context, the process-wide [telemetryReporter]
    variable, the promises it left pending on another extension's
    activation, and the rejections nobody handled. *)
Record State (W : Type) : Type := mkState {
  world : W;
  subscriptions : list Disposable;
  telemetryReporter : option IPackageInfo;
  pending : list Extension;
  unhandled : list Exn
}.

Arguments mkState {W}.

Definition M (W A : Type) : Type := State W -> Res A * State W * list Call.

Definition outcome {W A} (r : Res A * State W * list Call) : Res A := fst (fst r).
Definition final {W A} (r : Res A * State W * list Call) : State W := snd (fst r).
Definition calls {W A} (r : Res A * State W * list Call) : list Call := snd r.

Definition ret {W A} (a : A) : M W A := fun s => (Ok a, s, []).

Definition throw {W A} (e : Exn) : M W A := fun s => (Throw e, s, []).

Definition bind {W A B} (m : M W A) (f : A -> M W B) : M W B :=
  fun s =>
    match m s with
    | (Ok a, s1, l1) =>
        match f a s1 with
        | (r, s2, l2) => (r, s2, l1 ++ l2)
        end
    | (Throw e, s1, l1) => (Throw e, s1, l1)
    end.

(** [try { m } catch (e) { h e }] and [m.catch(h)]. *)
Definition catch {W A} (m : M W A) (h : Exn -> M W A) : M W A :=
  fun s =>
    match m s with
    | (Ok a, s1, l1) => (Ok a, s1, l1)
    | (Throw e, s1, l1) =>
        match h e s1 with
        | (r, s2, l2) => (r, s2, l1 ++ l2)
        end
    end.

(** A promise that is neither awaited nor returned: the call is made,
    the caller goes on, and a rejection lands with the host as an
    unhandled one. *)
Definition detach {W} (m : M W unit) : M W unit :=
  fun s =>
    match m s with
    | (Ok _, s1, l1) => (Ok tt, s1, l1)
    | (Throw e, s1, l1) =>
        (Ok tt,
         mkState (world s1) (subscriptions s1) (telemetryReporter s1)
                 (pending s1) (unhandled s1 ++ [e]),
         l1)
    end.

Definition lift {W A} (r : Res A) : M W A := fun s => (r, s, []).

Definition gets {W A} (f : W -> A) : M W A := fun s => (Ok (f (world s)), s, []).

Definition set_world {W} (s : State W) (w : W) : State W :=
  mkState w (subscriptions s) (telemetryReporter s) (pending s) (unhandled s).

Declare Scope coord_scope.
Delimit Scope coord_scope with coord.
Notation "x <- m ;; k" := (bind m (fun x => k))
  (at level 61, m at next level, right associativity) : coord_scope.
Notation "m ;; k" := (bind m (fun _ => k))
  (at level 61, right associativity) : coord_scope.
Open Scope coord_scope.

Fixpoint for_each {W A} (xs : list A) (body : A -> M W unit) : M W unit :=
  match xs with
  | [] => ret tt
  | x :: rest => body x ;; for_each rest body
  end.

(** ** The coordinator *)

Section Coordinator.

Context {W : Type} (host : Host W).

(** A call the host may fail: logged, then answered by the host. *)
Definition call {A} (c : Call) (op : W -> Res A * W) : M W A :=
  fun s =>
    match op (world s) with
    | (r, w) => (r, set_world s w, [c])
    end.

(** A call that only has an effect on the host. *)
Definition tell (c : Call) : M W unit :=
  fun s => (Ok tt, set_world s (notify host c (world s)), [c]).

(** The host settles a promise it handed out earlier. *)
Definition settle {A} (op : W -> Res A * W) : M W A :=
  fun s =>
    match op (world s) with
    | (r, w) => (r, set_world s w, [])
    end.

(** [context.subscriptions.push(d)] *)
Definition push (d : Disposable) : M W unit :=
  fun s =>
    (Ok tt,
     mkState (world s) (subscriptions s ++ [d]) (telemetryReporter s)
             (pending s) (unhandled s),
     []).

Definition set_telemetryReporter (r : option IPackageInfo) : M W unit :=
  fun s =>
    (Ok tt,
     mkState (world s) (subscriptions s) r (pending s) (unhandled s),
     []).

Definition enqueue (e : Extension) : M W unit :=
  fun s =>
    (Ok tt,
     mkState (world s) (subscriptions s) (telemetryReporter s)
             (pending s ++ [e]) (unhandled s),
     []).

(** [a && a.key] *)
Definition and_prop (a : JsValue) (key : string) : Res JsValue :=
  if truthy a then get_prop a key else Ok a.

(** [path.join(dir, p)]: Node's [path.join] throws a [TypeError] on an
    argument that is not a string. *)
Definition path_join_any (dir : string) (p : JsValue) : Res string :=
  match p with
  | VStr s => Ok (path_join host dir s)
  | _ => Throw (TypeError "Path must be a string")
  end.

Definition resolveExtensionResources (extension : Extension) (stylePath : JsValue)
  : Res Uri :=
  res_bind (Uri_parse host stylePath) (fun resource =>
  if nonempty (scheme resource) then Ok resource
  else res_bind (path_join_any (extensionPath extension) stylePath) (fun joined =>
       Ok (Uri_file host joined))).

Definition getPackageInfo : M W (option IPackageInfo) :=
  extention <- gets (extensions_getExtension host "Microsoft.vscode-markdown") ;;
  match extention with
  | Some e =>
      if truthy (packageJSON e) then
        n <- lift (get_prop (packageJSON e) "name") ;;
        v <- lift (get_prop (packageJSON e) "version") ;;
        k <- lift (get_prop (packageJSON e) "aiKey") ;;
        ret (Some (mkPackageInfo n v k))
      else ret None
  | None => ret None
  end.

Definition items_of (v : JsValue) : list JsValue :=
  match v with
  | VArr items => items
  | _ => []
  end.

Definition register_style (extension : Extension) (style : JsValue) : M W unit :=
  catch
    (resource <- lift (resolveExtensionResources extension style) ;;
     call (CAddStyle resource) (addStyle host resource))
    (fun _ => ret tt).

Definition register_script (extension : Extension) (script : JsValue) : M W unit :=
  catch
    (resource <- lift (resolveExtensionResources extension script) ;;
     call (CAddScript resource) (addScript host resource))
    (fun _ => ret tt).

(** The body of the loop over [vscode.extensions.all]. *)
Definition contribute (extension : Extension) : M W unit :=
  contributes <- lift (and_prop (packageJSON extension) "contributes") ;;
  if negb (truthy contributes) then ret tt
  else
    styles <- lift (get_prop contributes "markdown.previewStyles") ;;
    (if truthy styles && Array_isArray styles
     then for_each (items_of styles) (register_style extension)
     else ret tt) ;;
    scripts <- lift (get_prop contributes "markdown.previewScripts") ;;
    (if truthy scripts && Array_isArray scripts
     then for_each (items_of scripts) (register_script extension)
     else ret tt) ;;
    plugins <- lift (get_prop contributes "markdown.markdownItPlugins") ;;
    if truthy plugins
    then tell (CActivate (id extension)) ;; enqueue extension
    else ret tt.

(** The callback of [extension.activate().then(...)]. *)
Definition onActivated (extension : Extension) : M W unit :=
  exports <- gets (extension_exports host extension) ;;
  hook <- lift (and_prop exports "extendMarkdownIt") ;;
  if truthy hook then tell (CAddPlugin (id extension)) else ret tt.

(** The promise [extension.activate().then(...)]: the host settles the
    activation, and the callback runs if it was fulfilled. *)
Definition plugin_promise (extension : Extension) : M W unit :=
  settle (extension_activate host extension) ;; onActivated extension.

Definition register_command (command : string) : M W unit :=
  tell (CRegisterCommand command) ;; push (DCommand command).

Definition listen (event : string) : M W unit :=
  tell (CListen event) ;; push (DListener event).

Definition manager_register (class : string) : M W unit :=
  tell (CNew class) ;; tell (CCommandManagerRegister class).

Definition activate : M W unit :=
  packageInfo <- getPackageInfo ;;
  reporter <- match packageInfo with
              | Some info => tell (CNewTelemetryReporter info) ;; ret (Some info)
              | None => ret None
              end ;;
  set_telemetryReporter reporter ;;
  match reporter with
  | Some r => push (DTelemetryReporter r)
  | None => ret tt
  end ;;
  tell (CNew "ExtensionContentSecurityPolicyArbiter") ;;
  tell (CNew "MarkdownEngine") ;;
  tell (CNew "Logger") ;;
  tell (CNew "MDDocumentContentProvider") ;;
  tell (CRegisterTextDocumentContentProvider "markdown") ;;
  tell (CNew "PreviewSecuritySelector") ;;
  all <- gets (extensions_all host) ;;
  for_each all contribute ;;
  tell (CNew "MDDocumentSymbolProvider") ;;
  tell (CRegisterDocumentSymbolProvider "markdown") ;;
  push DContentProviderRegistration ;;
  push DSymbolsProviderRegistration ;;
  tell (CNew "LinkProvider") ;;
  tell (CRegisterDocumentLinkProvider "markdown") ;;
  push DLinkProviderRegistration ;;
  tell (CNew "CommandManager") ;;
  push DCommandManager ;;
  manager_register "ShowPreviewCommand" ;;
  manager_register "ShowPreviewToSideCommand" ;;
  manager_register "ShowSourceCommand" ;;
  manager_register "RefreshPreviewCommand" ;;
  manager_register "RevealLineCommand" ;;
  manager_register "MoveCursorToPositionCommand" ;;
  register_command "_markdown.didClick" ;;
  register_command "_markdown.openDocumentLink" ;;
  register_command "markdown.showPreviewSecuritySelector" ;;
  register_command "_markdown.onPreviewStyleLoadError" ;;
  listen "onDidSaveTextDocument" ;;
  listen "onDidChangeTextDocument" ;;
  listen "onDidChangeConfiguration" ;;
  listen "onDidChangeTextEditorSelection".

(** After [activate] has returned, the host settles the activations
    that were requested, in the order they were requested; nothing is
    attached to the promises, so a rejection is unhandled. *)
Definition drain : M W unit :=
  fun s =>
    for_each (pending s) (fun e => detach (plugin_promise e))
      (mkState (world s) (subscriptions s) (telemetryReporter s) [] (unhandled s)).

(** *** Command [_markdown.didClick] *)

Definition didClick (uri_arg : string) (line_arg : number) : M W unit :=
  decoded <- lift (decodeURIComponent host uri_arg) ;;
  sourceUri <- lift (Uri_parse host (VStr decoded)) ;;
  doc <- call (COpenTextDocument sourceUri) (openTextDocument host sourceUri) ;;
  editor <- call (CShowTextDocument doc) (showTextDocument host doc) ;;
  call (CExecuteCommand (revealLine (Math_floor line_arg) "center"))
       (executeCommand host (revealLine (Math_floor line_arg) "center")) ;;
  match editor with
  | Some ed =>
      anchor_position <- lift (new_Position (Math_floor line_arg) (num 0)) ;;
      active_position <- lift (new_Position (Math_floor line_arg) (num 0)) ;;
      tell (CSetSelection ed (mkSelection anchor_position active_position))
  | None => ret tt
  end.

(** *** Command [_markdown.openDocumentLink] *)

(** The line is what the table of contents yields: the line of a
    heading, or NaN; the range is written as data. *)
Definition tryRevealLine (args : OpenDocumentLinkArgs) (editor : option TextEditor)
  : M W unit :=
  match editor with
  | Some ed =>
      if nonempty (args_fragment args) then
        l <- call (CTocLookup (document ed) (args_fragment args))
                  (toc_lookup host (document ed) (args_fragment args)) ;;
        if negb (isNaN l)
        then tell (CRevealRange ed (mkRange l (num 0) l (num 0)) AtTop)
        else ret tt
      else ret tt
  | None => ret tt
  end.

Definition shows (p : string) (active_editor : option TextEditor) : bool :=
  match active_editor with
  | Some ed =>
      isMarkdownFile host (document ed)
      && String.eqb (Uri_fsPath host (uri (document ed))) p
  | None => false
  end.

Definition tryOpen (args : OpenDocumentLinkArgs) (p : string) : M W unit :=
  active_editor <- gets (activeTextEditor host) ;;
  if shows p active_editor then tryRevealLine args active_editor
  else
    doc <- call (COpenTextDocument (Uri_file host p))
                (openTextDocument host (Uri_file host p)) ;;
    editor <- call (CShowTextDocument doc) (showTextDocument host doc) ;;
    tryRevealLine args editor.

(** The rejection handler of [tryOpen(args.path).catch(...)]. *)
Definition openFallback (args : OpenDocumentLinkArgs) : M W unit :=
  if String.eqb (path_extname host (args_path args)) ""
  then tryOpen args (args_path args ++ ".md")
  else
    call (CExecuteCommand (vscode_open (Uri_file host (args_path args))))
         (executeCommand host (vscode_open (Uri_file host (args_path args)))) ;;
    ret tt.

Definition openDocumentLink (args : OpenDocumentLinkArgs) : M W unit :=
  catch (tryOpen args (args_path args)) (fun _ => openFallback args).

(** *** Command [markdown.showPreviewSecuritySelector] *)

Definition showPreviewSecuritySelector (resource : option string) : M W unit :=
  match resource with
  | Some r =>
      if nonempty r then
        parsed <- lift (Uri_parse host (VStr r)) ;;
        source <- lift (Uri_parse host (VStr (query parsed))) ;;
        tell (CShowSecuritySelector source)
      else
        active_editor <- gets (activeTextEditor host) ;;
        match active_editor with
        | Some ed =>
            if String.eqb (languageId (document ed)) "markdown"
            then tell (CShowSecuritySelector (uri (document ed)))
            else ret tt
        | None => ret tt
        end
  | None =>
      active_editor <- gets (activeTextEditor host) ;;
      match active_editor with
      | Some ed =>
          if String.eqb (languageId (document ed)) "markdown"
          then tell (CShowSecuritySelector (uri (document ed)))
          else ret tt
      | None => ret tt
      end
  end.

(** *** Command [_markdown.onPreviewStyleLoadError] *)

Definition onPreviewStyleLoadError (resources : list string) : M W unit :=
  tell (CShowWarningMessage
          (localize host "onPreviewStyleLoadError"
                    "Could not load 'markdown.styles': {0}"
                    (String.concat ", " resources))).

(** *** Event listeners *)

Definition onDidSaveTextDocument (doc : TextDocument) : M W unit :=
  if isMarkdownFile host doc
  then tell (CUpdate (getMarkdownUri host (uri doc)))
  else ret tt.

(** The event carries the changed document; its content changes are not
    read by the listener. *)
Definition onDidChangeTextDocument (event_document : TextDocument) : M W unit :=
  if isMarkdownFile host event_document
  then tell (CUpdate (getMarkdownUri host (uri event_document)))
  else ret tt.

Definition onDidChangeConfiguration : M W unit :=
  tell CLoggerUpdateConfiguration ;; tell CUpdateConfiguration.

Definition onDidChangeTextEditorSelection (event : TextEditorSelectionChangeEvent)
  : M W unit :=
  if isMarkdownFile host (document (textEditor event)) then
    let markdownFile := getMarkdownUri host (uri (document (textEditor event))) in
    tell (CLoggerLog "updatePreviewForSelection" (Uri_toString host markdownFile)) ;;
    match selections event with
    | [] => throw (TypeError "Cannot read property 'active' of undefined")
    | first :: _ =>
        detach (call (CExecuteCommand
                        (htmlPreview_postMessage markdownFile (line (active first))))
                     (executeCommand host
                        (htmlPreview_postMessage markdownFile (line (active first)))))
    end
  else ret tt.

End Coordinator.

Arguments ret {W A} a _ /.
Arguments throw {W A} e _ /.
Arguments lift {W A} r _ /.
Arguments gets {W A} f _ /.

(** ** A concrete host

    A small file-system-backed host on which the coordinator can be run:
    documents open when their path is among [files], the table of
    contents is an association list, and activation of the extensions
    listed in [rejecting] is rejected. *)
Module Demo.

Record World : Type := mkWorld {
  files : list string;
  active_editor : option TextEditor;
  toc : list (string * number);
  installed : list Extension;
  rejecting : list string;
  exported : list (string * JsValue);
  styles : list Uri;
  scripts : list Uri
}.

Definition is_stop (stops : list ascii) (c : ascii) : bool :=
  existsb (Ascii.eqb c) stops.

(** The longest prefix free of [stops], and what follows it. *)
Fixpoint split_at_any (stops : list ascii) (s : string) : string * string :=
  match s with
  | EmptyString => (EmptyString, EmptyString)
  | String c rest =>
      if is_stop stops c then (EmptyString, s)
      else let (pre, post) := split_at_any stops rest in (String c pre, post)
  end.

Definition drop1 (s : string) : string :=
  match s with
  | EmptyString => EmptyString
  | String _ rest => rest
  end.

Definition starts_with (c : ascii) (s : string) : bool :=
  match s with
  | String d _ => Ascii.eqb c d
  | EmptyString => false
  end.

(** [scheme:][//authority]path[?query][#fragment] *)
Definition parse_string (s : string) : Uri :=
  let (pre, rest) := split_at_any [":"; "/"; "?"; "#"]%char s in
  let (sch, s1) :=
    if starts_with ":" rest && nonempty pre then (pre, drop1 rest)
    else (EmptyString, s) in
  let (auth, s2) :=
    if starts_with "/" s1 && starts_with "/" (drop1 s1)
    then split_at_any ["/"; "?"; "#"]%char (drop1 (drop1 s1))
    else (EmptyString, s1) in
  let (pth, s3) := split_at_any ["?"; "#"]%char s2 in
  let (qry, s4) :=
    if starts_with "?" s3 then split_at_any ["#"]%char (drop1 s3)
    else (EmptyString, s3) in
  mkUri sch auth pth qry (drop1 s4).

Definition parse (v : JsValue) : Res Uri :=
  match v with
  | VStr s => Ok (parse_string s)
  | _ => Throw (TypeError "value.match is not a function")
  end.

Definition file (p : string) : Uri := mkUri "file" "" p "" "".

Definition toString (u : Uri) : string :=
  scheme u ++ "://" ++ authority u ++ path u
  ++ (if nonempty (query u) then "?" ++ query u else "")
  ++ (if nonempty (fragment u) then "#" ++ fragment u else "").

Fixpoint basename_from (s acc : string) : string :=
  match s with
  | EmptyString => acc
  | String c rest =>
      if Ascii.eqb c "/" then basename_from rest EmptyString
      else basename_from rest (acc ++ String c EmptyString)
  end.

Fixpoint last_dot_suffix (s : string) : option string :=
  match s with
  | EmptyString => None
  | String c rest =>
      match last_dot_suffix rest with
      | Some x => Some x
      | None => if Ascii.eqb c "." then Some s else None
      end
  end.

(** The extension of the last path segment; a leading dot does not
    start an extension. *)
Definition extname (p : string) : string :=
  let b := basename_from p EmptyString in
  if String.eqb b ".." then ""
  else match last_dot_suffix (drop1 b) with
       | Some x => x
       | None => ""
       end.

Definition join (dir p : string) : string := dir ++ "/" ++ p.

Fixpoint has_percent (s : string) : bool :=
  match s with
  | EmptyString => false
  | String c rest => Ascii.eqb c "%" || has_percent rest
  end.

(** Strings without escapes decode to themselves; this host treats
    every escape as malformed. *)
Definition decode (s : string) : Res string :=
  if has_percent s then Throw (URIError "URI malformed") else Ok s.

Definition exists_file (w : World) (p : string) : bool :=
  existsb (String.eqb p) (files w).

Definition is_markdown (d : TextDocument) : bool :=
  String.eqb (languageId d) "markdown"
  && negb (String.eqb (scheme (uri d)) "markdown").

Definition markdown_uri (u : Uri) : Uri :=
  if String.eqb (scheme u) "markdown" then u
  else mkUri "markdown" (authority u) (path u ++ ".rendered") (toString u) (fragment u).

Definition open (u : Uri) (w : World) : Res TextDocument * World :=
  if exists_file w (path u)
  then (Ok (mkTextDocument u
              (if String.eqb (extname (path u)) ".md" then "markdown" else "plaintext")),
        w)
  else (Throw (HostError "cannot open"), w).

Definition show (d : TextDocument) (w : World) : Res (option TextEditor) * World :=
  (Ok (Some (mkTextEditor d 1)),
   mkWorld (files w) (Some (mkTextEditor d 1)) (toc w) (installed w)
           (rejecting w) (exported w) (styles w) (scripts w)).

Definition execute (c : Command) (w : World) : Res unit * World :=
  match c with
  | vscode_open r =>
      if exists_file w (path r) then (Ok tt, w)
      else (Throw (HostError "cannot open resource"), w)
  | _ => (Ok tt, w)
  end.

Fixpoint assoc {A} (key : string) (l : list (string * A)) : option A :=
  match l with
  | [] => None
  | (k, v) :: rest => if String.eqb k key then Some v else assoc key rest
  end.

Definition lookup (d : TextDocument) (anchor_name : string) (w : World)
  : Res number * World :=
  match assoc anchor_name (toc w) with
  | Some l => (Ok l, w)
  | None => (Ok NaN, w)
  end.

Definition add_style (u : Uri) (w : World) : Res unit * World :=
  (Ok tt,
   mkWorld (files w) (active_editor w) (toc w) (installed w)
           (rejecting w) (exported w) (styles w ++ [u]) (scripts w)).

Definition add_script (u : Uri) (w : World) : Res unit * World :=
  (Ok tt,
   mkWorld (files w) (active_editor w) (toc w) (installed w)
           (rejecting w) (exported w) (styles w) (scripts w ++ [u])).

Definition activate_extension (e : Extension) (w : World) : Res unit * World :=
  if existsb (String.eqb (id e)) (rejecting w)
  then (Throw (HostError "activation failed"), w)
  else (Ok tt, w).

Definition exports_of (e : Extension) (w : World) : JsValue :=
  match assoc (id e) (exported w) with
  | Some v => v
  | None => VUndefined
  end.

Definition get_extension (name : string) (w : World) : option Extension :=
  find (fun e => String.eqb (id e) name) (installed w).

Definition host : Host World :=
  mkHost parse file path toString join extname decode
         (fun _ message arg => (message ++ " " ++ arg)%string)
         is_markdown markdown_uri
         installed get_extension exports_of active_editor
         open show execute lookup add_style add_script activate_extension
         (fun _ w => w).

Definition initial (w : World) : State World := mkState w [] None [] [].

(** The document [/a/b.md], an editor on it, and a world in which that
    editor is the active one and the heading [intro] is on line 5. *)
Definition guide : TextDocument := mkTextDocument (file "/a/b.md") "markdown".

Definition guide_editor : TextEditor := mkTextEditor guide 1.

Definition viewing_guide : World :=
  mkWorld ["/a/b.md"] (Some guide_editor) [("intro", num 5)] [] [] [] [] [].

(** A world with no file at all and no editor. *)
Definition empty_disk : World := mkWorld [] None [] [] [] [] [] [].

(** An extension without a [contributes] block. *)
Definition plain : Extension :=
  mkExtension "acme.plain" "/ext/plain" (VObj [("name", VStr "plain")]).

(** An extension that declares three styles, the second of which is not
    a path, a [previewScripts] value that is not an array, and the
    plugin hook. *)
Definition themed : Extension :=
  mkExtension "acme.themed" "/ext/themed"
    (VObj [("name", VStr "themed");
           ("contributes",
            VObj [("markdown.previewStyles",
                   VArr [VStr "media/a.css"; VNum (num 7);
                         VStr "https://cdn.example.com/b.css"]);
                  ("markdown.previewScripts", VStr "main.js");
                  ("markdown.markdownItPlugins", VBool true)])]).

(** [themed] is installed and activates, but exports no
    [extendMarkdownIt]. *)
Definition hookless : World :=
  mkWorld [] None [] [plain; themed] []
          [("acme.themed", VObj [("version", VNum (num 2))])] [] [].

(** [themed] is installed and its activation is rejected. *)
Definition broken_plugin : World :=
  mkWorld [] None [] [plain; themed] ["acme.themed"] [] [] [].

(** Only [/a/c.md] exists. *)
Definition one_note : World := mkWorld ["/a/c.md"] None [] [] [] [] [] [].

(** [themed] is installed, activates, and exports [extendMarkdownIt]. *)
Definition hooked : World :=
  mkWorld [] None [] [plain; themed] []
          [("acme.themed", VObj [("extendMarkdownIt", VFun "extendMarkdownIt")])]
          [] [].


(** [/a/c.md] exists and its heading [sec1] is on line 12. *)
Definition library : World :=
  mkWorld ["/a/c.md"] None [("sec1", num 12)] [] [] [] [] [].

(** The markdown extension itself is installed, with a manifest that
    has no [aiKey]. *)
Definition self_installed : World :=
  mkWorld [] None []
          [mkExtension "Microsoft.vscode-markdown" "/ext/markdown"
             (VObj [("name", VStr "markdown"); ("version", VStr "1.0.0")])]
          [] [] [] [].

(** A host on which no preview is open: posting a message to the
    preview is rejected. *)
Definition execute_without_preview (c : Command) (w : World) : Res unit * World :=
  match c with
  | htmlPreview_postMessage _ _ => (Throw (HostError "no preview"), w)
  | _ => execute c w
  end.

Definition host_without_preview : Host World :=
  mkHost parse file path toString join extname decode
         (fun _ message arg => (message ++ " " ++ arg)%string)
         is_markdown markdown_uri
         installed get_extension exports_of active_editor
         open show execute_without_preview lookup add_style add_script
         activate_extension
         (fun _ w => w).

End Demo.

(** ** Vocabulary of the statements *)

Section Vocabulary.

Context {W : Type} (host : Host W).

(** A computation that cannot fail and leaves the coordinator's own
    bookkeeping alone, apart from the queue of pending activations. *)
Definition contained (m : M W unit) : Prop :=
  forall s,
    outcome (m s) = Ok tt
    /\ subscriptions (final (m s)) = subscriptions s
    /\ telemetryReporter (final (m s)) = telemetryReporter s
    /\ unhandled (final (m s)) = unhandled s.

(** Whether the manifest has a (truthy) [contributes] block. *)
Definition has_contributes (extension : Extension) : bool :=
  match and_prop (packageJSON extension) "contributes" with
  | Ok c => truthy c
  | Throw _ => false
  end.

(** What the manifest declares under [contributes[key]]. *)
Definition contributed (extension : Extension) (key : string) : JsValue :=
  match and_prop (packageJSON extension) "contributes" with
  | Ok c =>
      if truthy c then
        match get_prop c key with
        | Ok v => v
        | Throw _ => VUndefined
        end
      else VUndefined
  | Throw _ => VUndefined
  end.

(** The registration call one declared item leads to: none when the
    item does not resolve. *)
Definition attempt (mk : Uri -> Call) (extension : Extension) (item : JsValue)
  : list Call :=
  match resolveExtensionResources host extension item with
  | Ok resource => [mk resource]
  | Throw _ => []
  end.

Definition registrations_of (extension : Extension) : list Call :=
  flat_map (attempt CAddStyle extension)
           (items_of (contributed extension "markdown.previewStyles"))
  ++ flat_map (attempt CAddScript extension)
              (items_of (contributed extension "markdown.previewScripts")).

Definition declares_plugins (extension : Extension) : bool :=
  truthy (contributed extension "markdown.markdownItPlugins").

(** Every call one turn of the loop makes. *)
Definition contribution_calls (extension : Extension) : list Call :=
  registrations_of extension
  ++ (if declares_plugins extension then [CActivate (id extension)] else []).



Definition metadata_resolves (w : W) : bool :=
  match extensions_getExtension host "Microsoft.vscode-markdown" w with
  | Some e => truthy (packageJSON e)
  | None => false
  end.

Definition is_some {A} (o : option A) : bool :=
  match o with
  | Some _ => true
  | None => false
  end.

Definition reporter_calls (info : option IPackageInfo) : list Call :=
  match info with
  | Some i => [CNewTelemetryReporter i]
  | None => []
  end.

Definition reporter_disposables (info : option IPackageInfo) : list Disposable :=
  match info with
  | Some i => [DTelemetryReporter i]
  | None => []
  end.

Definition is_new_reporter (c : Call) : bool :=
  match c with
  | CNewTelemetryReporter _ => true
  | _ => false
  end.

Definition is_reporter (d : Disposable) : bool :=
  match d with
  | DTelemetryReporter _ => true
  | _ => false
  end.

Definition registered : list Disposable :=
  [DContentProviderRegistration; DSymbolsProviderRegistration;
   DLinkProviderRegistration; DCommandManager;
   DCommand "_markdown.didClick"; DCommand "_markdown.openDocumentLink";
   DCommand "markdown.showPreviewSecuritySelector";
   DCommand "_markdown.onPreviewStyleLoadError";
   DListener "onDidSaveTextDocument"; DListener "onDidChangeTextDocument";
   DListener "onDidChangeConfiguration"; DListener "onDidChangeTextEditorSelection"].

(** [does m a pushed built rep]: [m] cannot fail; it yields [a], pushes
    [pushed] onto the subscriptions, constructs the reporters [built],
    moves the reporter variable by [rep] and leaves the unhandled
    rejections alone. *)
Definition does {A} (m : M W A) (a : A) (pushed : list Disposable)
           (built : list Call)
           (rep : option IPackageInfo -> option IPackageInfo) : Prop :=
  forall s,
    outcome (m s) = Ok a
    /\ subscriptions (final (m s)) = subscriptions s ++ pushed
    /\ filter is_new_reporter (calls (m s)) = built
    /\ telemetryReporter (final (m s)) = rep (telemetryReporter s)
    /\ unhandled (final (m s)) = unhandled s.

(** A computation that leaves the subscription list, the reporter
    variable and the queue of pending activations as they are. *)
Definition frames {A} (m : M W A) : Prop :=
  forall s,
    subscriptions (final (m s)) = subscriptions s
    /\ telemetryReporter (final (m s)) = telemetryReporter s
    /\ pending (final (m s)) = pending s.

(** The host's world after the calls [l], none of which can fail. *)
Definition replay (l : list Call) (w : W) : W :=
  fold_left (fun w' c => notify host c w') l w.

(** What [activate] constructs and registers before it turns to the
    installed extensions. *)
Definition prologue : list Call :=
  [CNew "ExtensionContentSecurityPolicyArbiter";
   CNew "MarkdownEngine";
   CNew "Logger";
   CNew "MDDocumentContentProvider";
   CRegisterTextDocumentContentProvider "markdown";
   CNew "PreviewSecuritySelector"].

(** What [activate] constructs and registers after them. *)
Definition epilogue : list Call :=
  [CNew "MDDocumentSymbolProvider";
   CRegisterDocumentSymbolProvider "markdown";
   CNew "LinkProvider";
   CRegisterDocumentLinkProvider "markdown";
   CNew "CommandManager";
   CNew "ShowPreviewCommand"; CCommandManagerRegister "ShowPreviewCommand";
   CNew "ShowPreviewToSideCommand"; CCommandManagerRegister "ShowPreviewToSideCommand";
   CNew "ShowSourceCommand"; CCommandManagerRegister "ShowSourceCommand";
   CNew "RefreshPreviewCommand"; CCommandManagerRegister "RefreshPreviewCommand";
   CNew "RevealLineCommand"; CCommandManagerRegister "RevealLineCommand";
   CNew "MoveCursorToPositionCommand";
   CCommandManagerRegister "MoveCursorToPositionCommand";
   CRegisterCommand "_markdown.didClick";
   CRegisterCommand "_markdown.openDocumentLink";
   CRegisterCommand "markdown.showPreviewSecuritySelector";
   CRegisterCommand "_markdown.onPreviewStyleLoadError";
   CListen "onDidSaveTextDocument";
   CListen "onDidChangeTextDocument";
   CListen "onDidChangeConfiguration";
   CListen "onDidChangeTextEditorSelection"].

(** [walks m a l]: [m] cannot fail, yields [a], makes the calls [l],
    none of which the host can fail, and queues no activation. *)
Definition walks {A} (m : M W A) (a : A) (l : list Call) : Prop :=
  forall s,
    outcome (m s) = Ok a
    /\ calls (m s) = l
    /\ world (final (m s)) = replay l (world s)
    /\ pending (final (m s)) = pending s.

(** [around m pre post]: [m] makes the calls [pre], then runs the loop
    over the extensions installed at that point, then makes the calls
    [post]; it queues the extensions that declare the plugin hook. *)
Definition around (m : M W unit) (pre post : list Call) : Prop :=
  forall s,
    outcome (m s) = Ok tt
    /\ calls (m s)
       = pre
         ++ flat_map contribution_calls (extensions_all host (replay pre (world s)))
         ++ post
    /\ pending (final (m s))
       = pending s
         ++ filter declares_plugins (extensions_all host (replay pre (world s))).

(** The empty selection at the start of line [l]. *)
Definition collapsed_at (l : number) : Selection :=
  mkSelection (mkPosition l (num 0)) (mkPosition l (num 0)).

(** The calls the document-link command may make for [args]. *)
Definition link_call_allowed (args : OpenDocumentLinkArgs) (c : Call) : Prop :=
  match c with
  | COpenTextDocument u =>
      u = Uri_file host (args_path args)
      \/ (path_extname host (args_path args) = ""
          /\ u = Uri_file host (args_path args ++ ".md")%string)
  | CShowTextDocument _ => True
  | CTocLookup _ f => f = args_fragment args /\ nonempty f = true
  | CRevealRange _ r how =>
      how = AtTop
      /\ nonempty (args_fragment args) = true
      /\ isNaN (startLine r) = false
      /\ r = mkRange (startLine r) (num 0) (startLine r) (num 0)
  | CExecuteCommand cmd =>
      cmd = vscode_open (Uri_file host (args_path args))
      /\ path_extname host (args_path args) <> ""
  | _ => False
  end.

(** The calls one attempt on the path [p] may make. *)
Definition attempt_call_allowed (args : OpenDocumentLinkArgs) (p : string) (c : Call)
  : Prop :=
  match c with
  | COpenTextDocument u => u = Uri_file host p
  | CShowTextDocument _ => True
  | CTocLookup _ f => f = args_fragment args /\ nonempty f = true
  | CRevealRange _ r how =>
      how = AtTop
      /\ nonempty (args_fragment args) = true
      /\ isNaN (startLine r) = false
      /\ r = mkRange (startLine r) (num 0) (startLine r) (num 0)
  | _ => False
  end.

Definition is_open (c : Call) : bool :=
  match c with
  | COpenTextDocument _ => true
  | _ => false
  end.

Definition is_lookup_or_reveal (c : Call) : bool :=
  match c with
  | CTocLookup _ _ | CRevealRange _ _ _ => true
  | _ => false
  end.


End Vocabulary.

(** ** Running computations *)

Section Running.

Context {W : Type}.

Lemma for_each_cons {A} (x : A) xs (body : A -> M W unit) s :
  outcome (body x s) = Ok tt ->
  for_each (x :: xs) body s
  = (outcome (for_each xs body (final (body x s))),
     final (for_each xs body (final (body x s))),
     calls (body x s) ++ calls (for_each xs body (final (body x s)))).
Proof.
  intros E. simpl. unfold bind.
  destruct (body x s) as [[o s1] l1]. unfold outcome in E. simpl in E. subst o.
  unfold final, calls. simpl.
  destruct (for_each xs body s1) as [[o2 s2] l2]. reflexivity.
Qed.

Lemma contained_ret : contained (W := W) (ret tt).
Proof.
  intros s. repeat split.
Qed.

Lemma contained_bind (m k : M W unit) :
  contained m -> contained k -> contained (bind m (fun _ => k)).
Proof.
  intros Hm Hk s.
  destruct (Hm s) as (Ho & Hs & Ht & Hu).
  destruct (Hk (final (m s))) as (Ho' & Hs' & Ht' & Hu').
  unfold bind.
  destruct (m s) as [[o s1] l1]. unfold outcome, final in *. simpl in *. subst o.
  destruct (k s1) as [[o2 s2] l2]. simpl in *.
  repeat split; congruence.
Qed.

Lemma contained_for_each {A} (xs : list A) (body : A -> M W unit) :
  (forall x, contained (body x)) -> contained (for_each xs body).
Proof.
  intros Hb. induction xs as [|x xs IH]; simpl.
  - apply contained_ret.
  - apply contained_bind; [apply Hb | exact IH].
Qed.

End Running.

Unset Implicit Arguments.

(** ** Contributed resources *)

Section Resources.

Context {W : Type} (host : Host W).

(** C4: a contributed style or script path whose parse carries a scheme
    is used as parsed, whatever the contributing extension's install
    directory is; a bare path becomes the file URI of the install
    directory joined with the path. *)
Theorem resolveExtensionResources_scheme_or_install_dir :
  forall (extension : Extension) (stylePath : JsValue) (resource : Uri),
    Uri_parse host stylePath = Ok resource ->
    (nonempty (scheme resource) = true ->
     forall other : Extension,
       resolveExtensionResources host other stylePath = Ok resource)
    /\ (scheme resource = "" ->
        forall p : string,
          stylePath = VStr p ->
          resolveExtensionResources host extension stylePath
          = Ok (Uri_file host (path_join host (extensionPath extension) p))).
Proof.
  intros extension stylePath resource Hparse. split.
  - intros Hscheme other. unfold resolveExtensionResources.
    rewrite Hparse. simpl. rewrite Hscheme. reflexivity.
  - intros Hscheme p ->. unfold resolveExtensionResources.
    rewrite Hparse. simpl. rewrite Hscheme. reflexivity.
Qed.

End Resources.

Lemma resolveExtensionResources_scheme_or_install_dir_witness :
  resolveExtensionResources Demo.host
    (mkExtension "acme.styles" "/ext/acme" VNull)
    (VStr "https://cdn.example.com/preview.css")
  = Ok (mkUri "https" "cdn.example.com" "/preview.css" "" "")
  /\ resolveExtensionResources Demo.host
       (mkExtension "acme.styles" "/ext/acme" VNull)
       (VStr "media/preview.css")
     = Ok (mkUri "file" "" "/ext/acme/media/preview.css" "" "").
Proof.
  split.
  - apply (resolveExtensionResources_scheme_or_install_dir Demo.host
             (mkExtension "acme.styles" "/ext/acme" VNull)
             (VStr "https://cdn.example.com/preview.css")
             (mkUri "https" "cdn.example.com" "/preview.css" "" "")
             eq_refl).
    reflexivity.
  - apply (resolveExtensionResources_scheme_or_install_dir Demo.host
             (mkExtension "acme.styles" "/ext/acme" VNull)
             (VStr "media/preview.css")
             (mkUri "" "" "media/preview.css" "" "")
             eq_refl).
    + reflexivity.
    + reflexivity.
Defined.

(** ** Event listeners *)

Section Listeners.

Context {W : Type} (host : Host W).

(** C5: on a document-saved and on a document-changed event the listener
    makes exactly one refresh call, [contentProvider.update], with the
    preview URI [getMarkdownUri] derives from the document's URI, when
    the document is a markdown file, and makes no call at all when it is
    not; in both cases it returns normally. *)
Theorem save_and_change_refresh_once :
  forall (doc : TextDocument) (s : State W),
    let refresh :=
      if isMarkdownFile host doc
      then [CUpdate (getMarkdownUri host (uri doc))]
      else [] in
    calls (onDidSaveTextDocument host doc s) = refresh
    /\ calls (onDidChangeTextDocument host doc s) = refresh
    /\ outcome (onDidSaveTextDocument host doc s) = Ok tt
    /\ outcome (onDidChangeTextDocument host doc s) = Ok tt
    /\ length refresh = (if isMarkdownFile host doc then 1 else 0)%nat.
Proof.
  intros doc s refresh. subst refresh.
  unfold onDidSaveTextDocument, onDidChangeTextDocument.
  destruct (isMarkdownFile host doc); repeat split.
Qed.

(** C6: on a selection-changed event whose editor shows a markdown file
    the listener logs the event and then executes the preview's
    post-message command once, with the derived preview URI and the
    line of the active end of the first selection; on any other
    document it calls nothing. *)
Theorem selection_forwards_first_active_line :
  forall (editor : TextEditor) (first : Selection) (others : list Selection)
         (s : State W),
    let event := mkSelectionChangeEvent editor (first :: others) in
    let preview := getMarkdownUri host (uri (document editor)) in
    calls (onDidChangeTextEditorSelection host event s)
    = (if isMarkdownFile host (document editor)
       then [CLoggerLog "updatePreviewForSelection" (Uri_toString host preview);
             CExecuteCommand (htmlPreview_postMessage preview (line (active first)))]
       else [])
    /\ outcome (onDidChangeTextEditorSelection host event s) = Ok tt.
Proof.
  intros editor first others s event preview. subst event preview.
  unfold onDidChangeTextEditorSelection. simpl.
  destruct (isMarkdownFile host (document editor)); [|split; reflexivity].
  unfold bind, tell, detach, call. simpl.
  destruct (executeCommand host _ _) as [[u|e] w]; split; reflexivity.
Qed.

End Listeners.

(** ** Commands *)

(** [Math_floor] of a finite number is the largest integer below it. *)
Lemma Math_floor_finite (q : Q) :
  Math_floor (Fin q) = num (Qfloor q)
  /\ (inject_Z (Qfloor q) <= q)%Q
  /\ (q < inject_Z (Qfloor q + 1))%Q.
Proof.
  split; [reflexivity|]. split; [apply Qfloor_le | apply Qlt_floor].
Qed.

(** Rounding down does not change the sign test. *)
Lemma negative_floor (x : number) : negative (Math_floor x) = negative x.
Proof.
  destruct x as [| | |q]; try reflexivity.
  simpl. f_equal.
  destruct (Qle_bool 0 q) eqn:E.
  - apply Qle_bool_iff. apply Qle_bool_iff in E.
    apply Qfloor_resp_le in E. change (Qfloor 0) with 0%Z in E.
    change (inject_Z 0 <= inject_Z (Qfloor q))%Q.
    rewrite <- Zle_Qle. exact E.
  - destruct (Qle_bool 0 (inject_Z (Qfloor q))) eqn:E'; [|reflexivity].
    apply Qle_bool_iff in E'.
    assert (H : Qle_bool 0 q = true).
    { apply Qle_bool_iff. eapply Qle_trans; [exact E' | apply Qfloor_le]. }
    congruence.
Qed.

Lemma new_Position_at_line_start (l : number) :
  negative l = false -> new_Position l (num 0) = Ok (mkPosition l (num 0)).
Proof.
  intros H. unfold new_Position. rewrite H. reflexivity.
Qed.

Section Commands.

Context {W : Type} (host : Host W).

(** C7, as the code has it: for a line that is not negative the
    link-click command, when the host opens the document, shows it in
    an editor and executes the reveal command, makes exactly four calls
    in this order: open the document at the decoded and parsed URI,
    show it, reveal line floor(line) at the center, and set the
    editor's selection to the empty selection at (floor(line), 0). *)
Theorem didClick_open_show_reveal_select :
  forall (uri_arg decoded : string) (line_arg : number) (sourceUri : Uri)
         (doc : TextDocument) (editor : TextEditor) (s : State W) (w1 w2 w3 : W),
    negative line_arg = false ->
    decodeURIComponent host uri_arg = Ok decoded ->
    Uri_parse host (VStr decoded) = Ok sourceUri ->
    openTextDocument host sourceUri (world s) = (Ok doc, w1) ->
    showTextDocument host doc w1 = (Ok (Some editor), w2) ->
    executeCommand host (revealLine (Math_floor line_arg) "center") w2 = (Ok tt, w3) ->
    let start := mkPosition (Math_floor line_arg) (num 0) in
    calls (didClick host uri_arg line_arg s)
    = [COpenTextDocument sourceUri;
       CShowTextDocument doc;
       CExecuteCommand (revealLine (Math_floor line_arg) "center");
       CSetSelection editor (mkSelection start start)]
    /\ outcome (didClick host uri_arg line_arg s) = Ok tt
    /\ (forall q : Q,
          line_arg = Fin q ->
          Math_floor line_arg = num (Qfloor q)
          /\ (inject_Z (Qfloor q) <= q < inject_Z (Qfloor q + 1))%Q).
Proof.
  intros uri_arg decoded line_arg sourceUri doc editor s w1 w2 w3
         Hline Hdecode Hparse Hopen Hshow Hreveal start.
  subst start.
  assert (Hposition : new_Position (Math_floor line_arg) (num 0)
                      = Ok (mkPosition (Math_floor line_arg) (num 0))).
  { apply new_Position_at_line_start. rewrite negative_floor. exact Hline. }
  unfold didClick, bind, call, tell. simpl.
  rewrite Hdecode. simpl. rewrite Hparse. simpl.
  rewrite Hopen. simpl. rewrite Hshow. simpl. rewrite Hreveal. simpl.
  rewrite Hposition. simpl.
  split; [reflexivity|]. split; [reflexivity|].
  intros q Hq. subst line_arg. destruct (Math_floor_finite q) as (Hf & Hle & Hlt).
  repeat split; assumption.
Qed.

(** C3: when the active editor already shows the markdown document at
    the payload's path, the document-link command neither opens nor
    shows a document: it looks the fragment up in the table of contents
    and, when the lookup yields a line, reveals that line at the top;
    when the lookup yields NaN it does nothing more.  Either way the
    command's promise is fulfilled and nothing is left unhandled. *)
Theorem openDocumentLink_active_editor :
  forall (args : OpenDocumentLinkArgs) (editor : TextEditor) (s : State W)
         (l : number) (w1 : W),
    activeTextEditor host (world s) = Some editor ->
    isMarkdownFile host (document editor) = true ->
    Uri_fsPath host (uri (document editor)) = args_path args ->
    nonempty (args_fragment args) = true ->
    toc_lookup host (document editor) (args_fragment args) (world s) = (Ok l, w1) ->
    calls (openDocumentLink host args s)
    = CTocLookup (document editor) (args_fragment args)
      :: (if isNaN l then []
          else [CRevealRange editor (mkRange l (num 0) l (num 0)) AtTop])
    /\ outcome (openDocumentLink host args s) = Ok tt
    /\ unhandled (final (openDocumentLink host args s)) = unhandled s.
Proof.
  intros args editor s l w1 Hactive Hmd Hpath Hfrag Hlookup.
  unfold openDocumentLink, catch, tryOpen, bind. simpl.
  rewrite Hactive. simpl. rewrite Hmd, Hpath, String.eqb_refl. simpl.
  rewrite Hfrag. unfold bind, call. rewrite Hlookup. simpl.
  destruct (isNaN l); simpl; repeat split.
Qed.

End Commands.

Lemma didClick_open_show_reveal_select_witness :
  calls (didClick Demo.host "file:///notes/todo.md" (Fin (7 # 2))
           (Demo.initial (Demo.mkWorld ["/notes/todo.md"] None [] [] [] [] [] [])))
  = [COpenTextDocument (mkUri "file" "" "/notes/todo.md" "" "");
     CShowTextDocument
       (mkTextDocument (mkUri "file" "" "/notes/todo.md" "" "") "markdown");
     CExecuteCommand (revealLine (num 3) "center");
     CSetSelection
       (mkTextEditor
          (mkTextDocument (mkUri "file" "" "/notes/todo.md" "" "") "markdown") 1)
       (mkSelection (mkPosition (num 3) (num 0)) (mkPosition (num 3) (num 0)))].
Proof.
  apply (didClick_open_show_reveal_select Demo.host
           "file:///notes/todo.md" "file:///notes/todo.md" (Fin (7 # 2))
           (mkUri "file" "" "/notes/todo.md" "" "")
           (mkTextDocument (mkUri "file" "" "/notes/todo.md" "" "") "markdown")
           (mkTextEditor
              (mkTextDocument (mkUri "file" "" "/notes/todo.md" "" "") "markdown") 1)
           (Demo.initial (Demo.mkWorld ["/notes/todo.md"] None [] [] [] [] [] []))
           (Demo.mkWorld ["/notes/todo.md"] None [] [] [] [] [] [])
           (Demo.mkWorld ["/notes/todo.md"]
              (Some (mkTextEditor
                       (mkTextDocument (mkUri "file" "" "/notes/todo.md" "" "")
                                       "markdown") 1))
              [] [] [] [] [] [])
           (Demo.mkWorld ["/notes/todo.md"]
              (Some (mkTextEditor
                       (mkTextDocument (mkUri "file" "" "/notes/todo.md" "" "")
                                       "markdown") 1))
              [] [] [] [] [] []));
    reflexivity.
Defined.

(** Against C7: for the line -1/2 the document is opened and shown and
    line -1 is revealed, but the position (-1, 0) is an illegal
    argument: no selection is set and the command's promise is
    rejected. *)
Lemma didClick_negative_line_sets_no_selection :
  didClick Demo.host "file:///notes/todo.md" (Fin (-1 # 2))
    (Demo.initial (Demo.mkWorld ["/notes/todo.md"] None [] [] [] [] [] []))
  = (Throw (HostError "Illegal argument: line must be non-negative"),
     Demo.initial
       (Demo.mkWorld ["/notes/todo.md"]
          (Some (mkTextEditor
                   (mkTextDocument (mkUri "file" "" "/notes/todo.md" "" "")
                                   "markdown") 1))
          [] [] [] [] [] []),
     [COpenTextDocument (mkUri "file" "" "/notes/todo.md" "" "");
      CShowTextDocument
        (mkTextDocument (mkUri "file" "" "/notes/todo.md" "" "") "markdown");
      CExecuteCommand (revealLine (num (-1)) "center")]).
Proof.
  reflexivity.
Qed.

Lemma openDocumentLink_active_editor_witness :
  calls (openDocumentLink Demo.host (mkOpenDocumentLinkArgs "/a/b.md" "intro")
           (Demo.initial Demo.viewing_guide))
  = [CTocLookup Demo.guide "intro";
     CRevealRange Demo.guide_editor (mkRange (num 5) (num 0) (num 5) (num 0)) AtTop].
Proof.
  apply (openDocumentLink_active_editor Demo.host
           (mkOpenDocumentLinkArgs "/a/b.md" "intro") Demo.guide_editor
           (Demo.initial Demo.viewing_guide) (num 5) Demo.viewing_guide);
    reflexivity.
Defined.

(** ** The contributions loop *)

Section Contributions.

Context {W : Type} (host : Host W).

Lemma bind_run {A B} (m : M W A) (f : A -> M W B) s a :
  outcome (m s) = Ok a ->
  bind m f s
  = (outcome (f a (final (m s))),
     final (f a (final (m s))),
     calls (m s) ++ calls (f a (final (m s)))).
Proof.
  intros E. unfold bind. destruct (m s) as [[o s1] l1].
  unfold outcome in E. simpl in E. subst o.
  unfold final, calls. simpl. destruct (f a s1) as [[o2 s2] l2]. reflexivity.
Qed.

Lemma for_each_calls {A} (spec : A -> list Call) (body : A -> M W unit)
      (xs : list A) :
  (forall x s, outcome (body x s) = Ok tt /\ calls (body x s) = spec x) ->
  forall s,
    outcome (for_each xs body s) = Ok tt
    /\ calls (for_each xs body s) = flat_map spec xs.
Proof.
  intros Hb. induction xs as [|x xs IH]; intros s.
  - split; reflexivity.
  - destruct (Hb x s) as [Ho Hc].
    rewrite (for_each_cons x xs body s Ho).
    destruct (IH (final (body x s))) as [Ho' Hc'].
    split; [exact Ho'|].
    unfold calls at 1. simpl. rewrite Hc, Hc'. reflexivity.
Qed.

Lemma register_style_run extension item s :
  outcome (register_style host extension item s) = Ok tt
  /\ calls (register_style host extension item s) = attempt host CAddStyle extension item.
Proof.
  unfold register_style, attempt, catch, bind, call. simpl.
  destruct (resolveExtensionResources host extension item) as [resource|e]; simpl.
  - destruct (addStyle host resource (world s)) as [[[]|e] w]; split; reflexivity.
  - split; reflexivity.
Qed.

Lemma register_script_run extension item s :
  outcome (register_script host extension item s) = Ok tt
  /\ calls (register_script host extension item s) = attempt host CAddScript extension item.
Proof.
  unfold register_script, attempt, catch, bind, call. simpl.
  destruct (resolveExtensionResources host extension item) as [resource|e]; simpl.
  - destruct (addScript host resource (world s)) as [[[]|e] w]; split; reflexivity.
  - split; reflexivity.
Qed.

Lemma get_prop_truthy v key :
  truthy v = true -> exists x, get_prop v key = Ok x.
Proof.
  destruct v; simpl; intros H; try discriminate; eauto.
Qed.

Lemma and_prop_total v key : exists c, and_prop v key = Ok c.
Proof.
  unfold and_prop. destruct (truthy v) eqn:E.
  - apply get_prop_truthy. exact E.
  - eauto.
Qed.

Lemma register_style_contained extension item :
  contained (register_style host extension item).
Proof.
  intros s. unfold register_style, catch, bind, call. simpl.
  destruct (resolveExtensionResources host extension item) as [resource|e]; simpl.
  - destruct (addStyle host resource (world s)) as [[[]|e] w]; repeat split.
  - repeat split.
Qed.

Lemma register_script_contained extension item :
  contained (register_script host extension item).
Proof.
  intros s. unfold register_script, catch, bind, call. simpl.
  destruct (resolveExtensionResources host extension item) as [resource|e]; simpl.
  - destruct (addScript host resource (world s)) as [[[]|e] w]; repeat split.
  - repeat split.
Qed.

(** One of the two guarded loops of the loop body. *)
Lemma block_run (mk : Uri -> Call) (body : Extension -> JsValue -> M W unit)
      extension v :
  (forall item s, outcome (body extension item s) = Ok tt
                  /\ calls (body extension item s) = attempt host mk extension item) ->
  (forall item, contained (body extension item)) ->
  forall s,
    let block :=
      if truthy v && Array_isArray v
      then for_each (items_of v) (body extension)
      else ret tt in
    calls (block s) = flat_map (attempt host mk extension) (items_of v)
    /\ outcome (block s) = Ok tt
    /\ subscriptions (final (block s)) = subscriptions s
    /\ telemetryReporter (final (block s)) = telemetryReporter s
    /\ unhandled (final (block s)) = unhandled s.
Proof.
  intros Hrun Hcont s block. subst block.
  destruct v as [| |b|n|str|items|props|f];
    simpl; rewrite ?andb_false_r; try (repeat split; reflexivity).
  destruct (for_each_calls (attempt host mk extension) (body extension) items
                           (Hrun) s) as [Ho Hc].
  destruct (contained_for_each items (body extension) Hcont s) as (_ & Hs & Ht & Hu).
  repeat split; assumption.
Qed.

Lemma lift_bind {A B} (a : A) (f : A -> M W B) s :
  bind (lift (Ok a)) f s = f a s.
Proof.
  unfold bind. simpl. destruct (f a s) as [[o s1] l1]. reflexivity.
Qed.

(** The loop body cannot fail, calls exactly [contribution_calls], and
    leaves the subscriptions, the reporter and the unhandled rejections
    as they are. *)
Lemma contribute_run extension s :
  outcome (contribute host extension s) = Ok tt
  /\ calls (contribute host extension s) = contribution_calls host extension
  /\ subscriptions (final (contribute host extension s)) = subscriptions s
  /\ telemetryReporter (final (contribute host extension s)) = telemetryReporter s
  /\ unhandled (final (contribute host extension s)) = unhandled s.
Proof.
  unfold contribute, contribution_calls, declares_plugins, registrations_of, contributed.
  destruct (and_prop_total (packageJSON extension) "contributes") as [c Hc].
  rewrite Hc, lift_bind.
  destruct (truthy c) eqn:Htruthy; simpl; [|repeat split; reflexivity].
  destruct (get_prop_truthy c "markdown.previewStyles" Htruthy) as [styles Hstyles].
  destruct (get_prop_truthy c "markdown.previewScripts" Htruthy) as [scripts Hscripts].
  destruct (get_prop_truthy c "markdown.markdownItPlugins" Htruthy) as [plugins Hplugins].
  rewrite Hstyles, Hscripts, Hplugins, lift_bind.
  pose proof (block_run CAddStyle (register_style host) extension styles
                (register_style_run extension) (register_style_contained extension) s)
    as (Hc1 & Ho1 & Hs1 & Ht1 & Hu1).
  cbv zeta in Hc1, Ho1, Hs1, Ht1, Hu1.
  rewrite (bind_run _ _ s tt Ho1).
  set (s1 := final ((if truthy styles && Array_isArray styles
                     then for_each (items_of styles) (register_style host extension)
                     else ret tt) s)) in *.
  rewrite lift_bind.
  pose proof (block_run CAddScript (register_script host) extension scripts
                (register_script_run extension) (register_script_contained extension) s1)
    as (Hc2 & Ho2 & Hs2 & Ht2 & Hu2).
  cbv zeta in Hc2, Ho2, Hs2, Ht2, Hu2.
  rewrite (bind_run _ _ s1 tt Ho2).
  set (s2 := final ((if truthy scripts && Array_isArray scripts
                     then for_each (items_of scripts) (register_script host extension)
                     else ret tt) s1)) in *.
  rewrite lift_bind.
  cbn [outcome final calls fst snd].
  rewrite Hc1, Hc2, <- app_assoc.
  destruct (truthy plugins).
  - unfold bind, tell, enqueue.
    cbn [outcome final calls fst snd subscriptions telemetryReporter unhandled set_world app].
    repeat split; congruence.
  - cbn [ret outcome final calls fst snd].
    repeat split; congruence.
Qed.

End Contributions.

Section ContributionClaims.

Context {W : Type} (host : Host W).

Lemma filter_none (p : Call -> bool) (l : list Call) :
  (forall c, In c l -> p c = false) -> filter p l = [].
Proof.
  induction l as [|c l IH]; intros H; simpl.
  - reflexivity.
  - rewrite (H c (or_introl eq_refl)). apply IH.
    intros c' Hc'. apply H. right. exact Hc'.
Qed.


(** C8: an extension without a [contributes] block makes the loop body
    return at once, with no call and no error; and the loops make the
    registration call for every declared item that resolves, in order,
    whatever happened to the items before it, so an item that fails
    takes nothing else with it.  Neither loop can fail. *)
Theorem contributions_isolated :
  (forall extension s,
      has_contributes extension = false ->
      contribute host extension s = (Ok tt, s, []))
  /\ (forall extension items s,
         outcome (for_each items (register_style host extension) s) = Ok tt
         /\ calls (for_each items (register_style host extension) s)
            = flat_map (attempt host CAddStyle extension) items
         /\ outcome (for_each items (register_script host extension) s) = Ok tt
         /\ calls (for_each items (register_script host extension) s)
            = flat_map (attempt host CAddScript extension) items)
  /\ (forall all s,
         outcome (for_each all (contribute host) s) = Ok tt
         /\ calls (for_each all (contribute host) s)
            = flat_map (contribution_calls host) all).
Proof.
  split; [|split].
  - intros extension s Hnone. unfold has_contributes in Hnone.
    unfold contribute.
    destruct (and_prop_total (packageJSON extension) "contributes") as [c Hc].
    rewrite Hc in *. rewrite lift_bind. rewrite Hnone. reflexivity.
  - intros extension items s.
    destruct (for_each_calls (attempt host CAddStyle extension)
                (register_style host extension) items
                (register_style_run host extension) s) as [Ho Hc].
    destruct (for_each_calls (attempt host CAddScript extension)
                (register_script host extension) items
                (register_script_run host extension) s) as [Ho' Hc'].
    repeat split; assumption.
  - intros all s.
    apply (for_each_calls (contribution_calls host) (contribute host) all).
    intros x s'. destruct (contribute_run host x s') as (Ho & Hc & _).
    split; assumption.
Qed.


End ContributionClaims.

Section Activation.

Context {W : Type} (host : Host W).

Lemma gets_bind {A B} (f : W -> A) (k : A -> M W B) s :
  bind (gets f) k s = k (f (world s)) s.
Proof.
  unfold bind. simpl. destruct (k (f (world s)) s) as [[o s1] l1]. reflexivity.
Qed.

Lemma getPackageInfo_run s :
  exists info,
    getPackageInfo host s = (Ok info, s, [])
    /\ is_some info = metadata_resolves host (world s).
Proof.
  unfold getPackageInfo, metadata_resolves. rewrite gets_bind.
  destruct (extensions_getExtension host "Microsoft.vscode-markdown" (world s))
    as [e|]; [|exists None; split; reflexivity].
  destruct (truthy (packageJSON e)) eqn:Htruthy; [|exists None; split; reflexivity].
  destruct (get_prop_truthy (packageJSON e) "name" Htruthy) as [n Hn].
  destruct (get_prop_truthy (packageJSON e) "version" Htruthy) as [v Hv].
  destruct (get_prop_truthy (packageJSON e) "aiKey" Htruthy) as [k Hk].
  exists (Some (mkPackageInfo n v k)).
  rewrite Hn, Hv, Hk, !lift_bind. split; reflexivity.
Qed.

Lemma loop_run all s :
  outcome (for_each all (contribute host) s) = Ok tt
  /\ calls (for_each all (contribute host) s) = flat_map (contribution_calls host) all
  /\ subscriptions (final (for_each all (contribute host) s)) = subscriptions s
  /\ telemetryReporter (final (for_each all (contribute host) s)) = telemetryReporter s
  /\ unhandled (final (for_each all (contribute host) s)) = unhandled s.
Proof.
  destruct (for_each_calls (contribution_calls host) (contribute host) all) with (s := s)
    as [Ho Hc].
  { intros x s'. destruct (contribute_run host x s') as (Ho & Hc & _). split; assumption. }
  destruct (contained_for_each all (contribute host)) with (s := s) as (_ & Hs & Ht & Hu).
  { intros x s'. destruct (contribute_run host x s') as (Ho' & _ & Hs & Ht & Hu).
    repeat split; assumption. }
  repeat split; assumption.
Qed.

Lemma does_ret {A} (a : A) : does (W := W) (ret a) a [] [] (fun r => r).
Proof.
  intros s. cbn. rewrite app_nil_r. repeat split.
Qed.

Lemma does_tell c : does (tell host c) tt [] (filter is_new_reporter [c]) (fun r => r).
Proof.
  intros s. unfold tell. cbn [outcome final calls fst snd set_world subscriptions
                               telemetryReporter unhandled].
  rewrite app_nil_r. repeat split.
Qed.

Lemma does_push d : does (W := W) (push d) tt [d] [] (fun r => r).
Proof.
  intros s. repeat split.
Qed.

Lemma does_set r : does (W := W) (set_telemetryReporter r) tt [] [] (fun _ => r).
Proof.
  intros s. cbn. rewrite app_nil_r. repeat split.
Qed.

Lemma does_bind {A B} (m : M W A) (k : A -> M W B) a b p1 p2 b1 b2 r1 r2 :
  does m a p1 b1 r1 ->
  does (k a) b p2 b2 r2 ->
  does (bind m k) b (p1 ++ p2) (b1 ++ b2) (fun r => r2 (r1 r)).
Proof.
  intros Hm Hk s.
  destruct (Hm s) as (Ho & Hs & Hb & Ht & Hu).
  rewrite (bind_run m k s a Ho).
  destruct (Hk (final (m s))) as (Ho' & Hs' & Hb' & Ht' & Hu').
  cbn [outcome final calls fst snd].
  rewrite filter_app, Hb, Hb', Hs', Hs, Ht', Ht, Hu', Hu, <- app_assoc.
  repeat split. exact Ho'.
Qed.

Lemma does_gets {A B} (f : W -> A) (k : A -> M W B) b p bl r :
  (forall a, does (k a) b p bl r) -> does (bind (gets f) k) b p bl r.
Proof.
  intros Hk s. rewrite gets_bind. apply Hk.
Qed.

Lemma does_loop all : does (for_each all (contribute host)) tt [] [] (fun r => r).
Proof.
  intros s. destruct (loop_run all s) as (Ho & Hc & Hs & Ht & Hu).
  rewrite Hc, Hs, Ht, Hu, app_nil_r.
  split; [exact Ho|]. split; [reflexivity|]. split; [|split; reflexivity].
  apply filter_none. intros c Hin.
  apply in_flat_map in Hin. destruct Hin as (e & _ & Hin).
  unfold contribution_calls, registrations_of in Hin.
  rewrite !in_app_iff in Hin. destruct Hin as [[Hin|Hin]|Hin].
  - apply in_flat_map in Hin. destruct Hin as (item & _ & Hin).
    unfold attempt in Hin.
    destruct (resolveExtensionResources host e item);
      [destruct Hin as [<-|[]]; reflexivity | destruct Hin].
  - apply in_flat_map in Hin. destruct Hin as (item & _ & Hin).
    unfold attempt in Hin.
    destruct (resolveExtensionResources host e item);
      [destruct Hin as [<-|[]]; reflexivity | destruct Hin].
  - destruct (declares_plugins e);
      [destruct Hin as [<-|[]]; reflexivity | destruct Hin].
Qed.

Ltac does_step :=
  lazymatch goal with
  | |- does (ret _) _ _ _ _ => eapply does_ret
  | |- does (tell _ _) _ _ _ _ => eapply does_tell
  | |- does (push _) _ _ _ _ => eapply does_push
  | |- does (set_telemetryReporter _) _ _ _ _ => eapply does_set
  | |- does (for_each _ (contribute _)) _ _ _ _ => eapply does_loop
  | |- does (bind (gets _) _) _ _ _ _ => eapply does_gets; intro; does_step
  | |- does (bind _ _) _ _ _ _ =>
      eapply does_bind; [does_step | cbv beta iota; does_step]
  end.

Lemma activate_run s :
  exists info,
    getPackageInfo host s = (Ok info, s, [])
    /\ is_some info = metadata_resolves host (world s)
    /\ outcome (activate host s) = Ok tt
    /\ telemetryReporter (final (activate host s)) = info
    /\ subscriptions (final (activate host s))
       = subscriptions s ++ reporter_disposables info ++ registered
    /\ unhandled (final (activate host s)) = unhandled s
    /\ filter is_new_reporter (calls (activate host s)) = reporter_calls info.
Proof.
  destruct (getPackageInfo_run s) as (info & Hg & Hres).
  exists info.
  unfold activate.
  rewrite (bind_run _ _ s info) by (rewrite Hg; reflexivity).
  rewrite Hg. cbn [final calls outcome fst snd app].
  split; [reflexivity|]. split; [exact Hres|].
  unfold manager_register, register_command, listen.
  destruct info as [i|].
  - match goal with
    | |- context [outcome (?m s)] =>
        assert (H : exists p b r,
                   does m tt p b r
                   /\ p = [DTelemetryReporter i] ++ registered
                   /\ b = [CNewTelemetryReporter i]
                   /\ forall x, r x = Some i)
    end.
    { do 3 eexists. split; [does_step|]. cbn. repeat split. }
    destruct H as (p & b & r & Hd & -> & -> & Hr).
    destruct (Hd s) as (Ho & Hs & Hb & Ht & Hu).
    rewrite Ho, Hs, Hb, Ht, Hu, Hr. repeat split.
  - match goal with
    | |- context [outcome (?m s)] =>
        assert (H : exists p b r,
                   does m tt p b r
                   /\ p = registered
                   /\ b = []
                   /\ forall x, r x = None)
    end.
    { do 3 eexists. split; [does_step|]. cbn. repeat split. }
    destruct H as (p & b & r & Hd & -> & -> & Hr).
    destruct (Hd s) as (Ho & Hs & Hb & Ht & Hu).
    rewrite Ho, Hs, Hb, Ht, Hu, Hr. repeat split.
Qed.

(** C9: the metadata lookup cannot fail; the telemetry reporter is
    constructed exactly when it yields a record (the extension is
    found and has a manifest), and is then pushed onto the subscription
    list exactly once, ahead of the twelve registrations; without
    metadata no reporter is constructed or pushed, the reporter
    variable is null, and activation completes all the same. *)
Theorem telemetry_reporter_iff_metadata :
  forall s : State W,
  exists info : option IPackageInfo,
    getPackageInfo host s = (Ok info, s, [])
    /\ is_some info = metadata_resolves host (world s)
    /\ filter is_new_reporter (calls (activate host s)) = reporter_calls info
    /\ telemetryReporter (final (activate host s)) = info
    /\ subscriptions (final (activate host s))
       = subscriptions s ++ reporter_disposables info ++ registered
    /\ length (filter is_reporter (reporter_disposables info ++ registered))
       = (if is_some info then 1 else 0)%nat
    /\ length (reporter_calls info) = (if is_some info then 1 else 0)%nat
    /\ outcome (activate host s) = Ok tt.
Proof.
  intros s.
  destruct (activate_run s) as (info & Hg & Hres & Ho & Ht & Hs & Hu & Hb).
  exists info. repeat split; try assumption.
  - destruct info; reflexivity.
  - destruct info; reflexivity.
Qed.

End Activation.

Lemma contributions_isolated_witness :
  contribute Demo.host Demo.plain (Demo.initial Demo.hookless)
  = (Ok tt, Demo.initial Demo.hookless, []).
Proof.
  apply (proj1 (contributions_isolated Demo.host)). reflexivity.
Defined.

(** The loop on [plain] and [themed]: the number among the styles is
    skipped, its neighbours are registered, the string under
    [previewScripts] registers nothing, and the activation of [themed]
    is requested. *)
Example contributions_of_themed :
  calls (for_each [Demo.plain; Demo.themed] (contribute Demo.host)
           (Demo.initial Demo.hookless))
  = [CAddStyle (mkUri "file" "" "/ext/themed/media/a.css" "" "");
     CAddStyle (mkUri "https" "cdn.example.com" "/b.css" "" "");
     CActivate "acme.themed"].
Proof.
  reflexivity.
Qed.



(** ** What is caught and what is not *)

Section Containment.

Context {W : Type} (host : Host W).

(** C1, as the code has it: activation cannot throw and leaves no
    rejection unhandled, each style and each script is registered under
    its own try/catch, and a failure of the first attempt host of the
    document-link command is always caught and answered by the
    fallback, whose result is the command's result. *)
Theorem activation_and_first_open_contained :
  (forall s,
      outcome (activate host s) = Ok tt
      /\ unhandled (final (activate host s)) = unhandled s)
  /\ (forall extension item s,
         outcome (register_style host extension item s) = Ok tt
         /\ outcome (register_script host extension item s) = Ok tt)
  /\ (forall args s e s1 l1,
         tryOpen host args (args_path args) s = (Throw e, s1, l1) ->
         openDocumentLink host args s
         = (outcome (openFallback host args s1),
            final (openFallback host args s1),
            l1 ++ calls (openFallback host args s1)))
  /\ (forall args s s1 l1,
         tryOpen host args (args_path args) s = (Ok tt, s1, l1) ->
         openDocumentLink host args s = (Ok tt, s1, l1)).
Proof.
  split; [|split; [|split]].
  - intros s.
    destruct (activate_run host s) as (info & _ & _ & Ho & _ & _ & Hu & _).
    split; assumption.
  - intros extension item s. split.
    + apply register_style_run.
    + apply register_script_run.
  - intros args s e s1 l1 Hfirst. unfold openDocumentLink, catch.
    rewrite Hfirst. destruct (openFallback host args s1) as [[r s2] l2].
    reflexivity.
  - intros args s s1 l1 Hfirst. unfold openDocumentLink, catch.
    rewrite Hfirst. reflexivity.
Qed.

(** C2, as the code has it: after a failed first attempt host the command
    either retries with [.md] appended, when the path has no extension,
    and then settles as the retry settles, with no generic open after
    it; or, when the path has an extension, runs the host's generic
    open command on the file URI of the original path and settles as
    that command settles. *)
Theorem openDocumentLink_retry_or_generic_open :
  forall args s e s1 l1,
    tryOpen host args (args_path args) s = (Throw e, s1, l1) ->
    (path_extname host (args_path args) = "" ->
     openDocumentLink host args s
     = (outcome (tryOpen host args (args_path args ++ ".md") s1),
        final (tryOpen host args (args_path args ++ ".md") s1),
        l1 ++ calls (tryOpen host args (args_path args ++ ".md") s1)))
    /\ (path_extname host (args_path args) <> "" ->
        forall x w2,
          executeCommand host (vscode_open (Uri_file host (args_path args))) (world s1)
          = (x, w2) ->
          openDocumentLink host args s
          = (x, set_world s1 w2,
             l1 ++ [CExecuteCommand (vscode_open (Uri_file host (args_path args)))])).
Proof.
  intros args s e s1 l1 Hfirst.
  unfold openDocumentLink, catch. rewrite Hfirst.
  unfold openFallback. split.
  - intros Hext. rewrite Hext. simpl.
    destruct (tryOpen host args (args_path args ++ ".md") s1) as [[r s2] l2].
    reflexivity.
  - intros Hext x w2 Hopen.
    destruct (String.eqb (path_extname host (args_path args)) "") eqn:E.
    + apply String.eqb_eq in E. contradiction.
    + unfold bind, call. rewrite Hopen.
      destruct x as [[]|e']; reflexivity.
Qed.

End Containment.

Lemma activation_and_first_open_contained_witness :
  openDocumentLink Demo.host (mkOpenDocumentLinkArgs "/a/c" "") (Demo.initial Demo.one_note)
  = (Ok tt,
     mkState (Demo.mkWorld ["/a/c.md"]
                (Some (mkTextEditor (mkTextDocument (Demo.file "/a/c.md") "markdown") 1))
                [] [] [] [] [] [])
             [] None [] [],
     [COpenTextDocument (Demo.file "/a/c");
      COpenTextDocument (Demo.file "/a/c.md");
      CShowTextDocument (mkTextDocument (Demo.file "/a/c.md") "markdown")]).
Proof.
  apply (proj1 (proj2 (proj2 (activation_and_first_open_contained Demo.host)))
           (mkOpenDocumentLinkArgs "/a/c" "") (Demo.initial Demo.one_note)
           (HostError "cannot open") (Demo.initial Demo.one_note)
           [COpenTextDocument (Demo.file "/a/c")]).
  reflexivity.
Defined.

(** Against C1: the link-click command rejects when the document cannot
    be opened, and a rejected plugin activation is left unhandled. *)
Lemma rejections_escape :
  outcome (didClick Demo.host "file:///missing.md" (num 3)
             (Demo.initial Demo.empty_disk))
  = Throw (HostError "cannot open")
  /\ unhandled
       (final ((activate Demo.host ;; drain Demo.host)
                 (Demo.initial Demo.broken_plugin)))
     = [HostError "activation failed"].
Proof.
  split; reflexivity.
Qed.

Lemma openDocumentLink_retry_or_generic_open_witness :
  openDocumentLink Demo.host (mkOpenDocumentLinkArgs "/a/c" "") (Demo.initial Demo.one_note)
  = (Ok tt,
     mkState (Demo.mkWorld ["/a/c.md"]
                (Some (mkTextEditor (mkTextDocument (Demo.file "/a/c.md") "markdown") 1))
                [] [] [] [] [] [])
             [] None [] [],
     [COpenTextDocument (Demo.file "/a/c");
      COpenTextDocument (Demo.file "/a/c.md");
      CShowTextDocument (mkTextDocument (Demo.file "/a/c.md") "markdown")])
  /\ openDocumentLink Demo.host (mkOpenDocumentLinkArgs "/a/c.txt" "")
       (Demo.initial Demo.one_note)
     = (Throw (HostError "cannot open resource"), Demo.initial Demo.one_note,
        [COpenTextDocument (Demo.file "/a/c.txt");
         CExecuteCommand (vscode_open (Demo.file "/a/c.txt"))]).
Proof.
  split.
  - apply (proj1 (openDocumentLink_retry_or_generic_open Demo.host
                    (mkOpenDocumentLinkArgs "/a/c" "") (Demo.initial Demo.one_note)
                    (HostError "cannot open") (Demo.initial Demo.one_note)
                    [COpenTextDocument (Demo.file "/a/c")] eq_refl)).
    reflexivity.
  - apply (proj2 (openDocumentLink_retry_or_generic_open Demo.host
                    (mkOpenDocumentLinkArgs "/a/c.txt" "") (Demo.initial Demo.one_note)
                    (HostError "cannot open") (Demo.initial Demo.one_note)
                    [COpenTextDocument (Demo.file "/a/c.txt")] eq_refl)).
    + discriminate.
    + reflexivity.
Defined.

(** Against C2: for the extensionless path [/a/b] that cannot be opened,
    the retry with [/a/b.md] is the end of the chain: the generic open
    command is never executed and the command's promise is rejected;
    and for a path with an extension the error of the generic open
    command is the command's result. *)
Lemma no_generic_open_after_retry :
  openDocumentLink Demo.host (mkOpenDocumentLinkArgs "/a/b" "sec1")
    (Demo.initial Demo.empty_disk)
  = (Throw (HostError "cannot open"), Demo.initial Demo.empty_disk,
     [COpenTextDocument (Demo.file "/a/b"); COpenTextDocument (Demo.file "/a/b.md")])
  /\ outcome (openDocumentLink Demo.host (mkOpenDocumentLinkArgs "/a/b.txt" "sec1")
                (Demo.initial Demo.empty_disk))
     = Throw (HostError "cannot open resource").
Proof.
  split; reflexivity.
Qed.

(** ** What the handlers leave alone *)

Section Frames.

Context {W : Type} (host : Host W).

Lemma frames_ret {A} (a : A) : frames (W := W) (ret a).
Proof.
  intros s. repeat split.
Qed.

Lemma frames_throw {A} (e : Exn) : frames (W := W) (A := A) (throw e).
Proof.
  intros s. repeat split.
Qed.

Lemma frames_lift {A} (r : Res A) : frames (W := W) (lift r).
Proof.
  intros s. repeat split.
Qed.

Lemma frames_gets {A} (f : W -> A) : frames (gets f).
Proof.
  intros s. repeat split.
Qed.

Lemma frames_call {A} (c : Call) (op : W -> Res A * W) : frames (call c op).
Proof.
  intros s. unfold call. destruct (op (world s)) as [r w]. repeat split.
Qed.

Lemma frames_settle {A} (op : W -> Res A * W) : frames (settle op).
Proof.
  intros s. unfold settle. destruct (op (world s)) as [r w]. repeat split.
Qed.

Lemma frames_tell (c : Call) : frames (tell host c).
Proof.
  intros s. repeat split.
Qed.

Lemma frames_bind {A B} (m : M W A) (k : A -> M W B) :
  frames m -> (forall a, frames (k a)) -> frames (bind m k).
Proof.
  intros Hm Hk s. destruct (Hm s) as (Hs & Ht & Hp).
  unfold bind. destruct (m s) as [[[a|e] s1] l1]; cbn [final fst snd] in *.
  - destruct (Hk a s1) as (Hs' & Ht' & Hp').
    destruct (k a s1) as [[r s2] l2]. cbn [final fst snd] in *.
    repeat split; congruence.
  - repeat split; assumption.
Qed.

Lemma frames_catch {A} (m : M W A) (h : Exn -> M W A) :
  frames m -> (forall e, frames (h e)) -> frames (catch m h).
Proof.
  intros Hm Hh s. destruct (Hm s) as (Hs & Ht & Hp).
  unfold catch. destruct (m s) as [[[a|e] s1] l1]; cbn [final fst snd] in *.
  - repeat split; assumption.
  - destruct (Hh e s1) as (Hs' & Ht' & Hp').
    destruct (h e s1) as [[r s2] l2]. cbn [final fst snd] in *.
    repeat split; congruence.
Qed.

Lemma frames_detach (m : M W unit) : frames m -> frames (detach m).
Proof.
  intros Hm s. destruct (Hm s) as (Hs & Ht & Hp).
  unfold detach. destruct (m s) as [[[u|e] s1] l1]; cbn [final fst snd] in *;
    repeat split; assumption.
Qed.

Lemma frames_for_each {A} (xs : list A) (body : A -> M W unit) :
  (forall x, frames (body x)) -> frames (for_each xs body).
Proof.
  intros Hb. induction xs as [|x xs IH]; simpl.
  - apply frames_ret.
  - apply frames_bind; [apply Hb | intros _; exact IH].
Qed.

Lemma frames_tryRevealLine args editor : frames (tryRevealLine host args editor).
Proof.
  unfold tryRevealLine. destruct editor as [ed|]; [|apply frames_ret].
  destruct (nonempty (args_fragment args)); [|apply frames_ret].
  apply frames_bind; [apply frames_call|].
  intros l. destruct (negb (isNaN l)); [apply frames_tell | apply frames_ret].
Qed.

Lemma frames_tryOpen args p : frames (tryOpen host args p).
Proof.
  unfold tryOpen. apply frames_bind; [apply frames_gets|].
  intros active. destruct (shows host p active).
  - apply frames_tryRevealLine.
  - apply frames_bind; [apply frames_call|]. intros doc.
    apply frames_bind; [apply frames_call|]. intros editor.
    apply frames_tryRevealLine.
Qed.

Lemma frames_selector_for_active :
  frames (active_editor <- gets (activeTextEditor host) ;;
          match active_editor with
          | Some ed =>
              if String.eqb (languageId (document ed)) "markdown"
              then tell host (CShowSecuritySelector (uri (document ed)))
              else ret tt
          | None => ret tt
          end).
Proof.
  apply frames_bind; [apply frames_gets|].
  intros [ed|]; [|apply frames_ret].
  destruct (String.eqb (languageId (document ed)) "markdown");
    [apply frames_tell | apply frames_ret].
Qed.

(** No command handler and no event listener touches the subscription
    list, the reporter variable or the queue of pending activations:
    whatever the host answers, and whether they fail or not, these are
    after the handler what they were before. *)
Theorem handlers_keep_the_books :
  (forall uri_arg line_arg, frames (didClick host uri_arg line_arg))
  /\ (forall args, frames (openDocumentLink host args))
  /\ (forall resource, frames (showPreviewSecuritySelector host resource))
  /\ (forall resources, frames (onPreviewStyleLoadError host resources))
  /\ (forall doc, frames (onDidSaveTextDocument host doc))
  /\ (forall doc, frames (onDidChangeTextDocument host doc))
  /\ frames (onDidChangeConfiguration host)
  /\ (forall event, frames (onDidChangeTextEditorSelection host event)).
Proof.
  repeat apply conj; intros.
  - unfold didClick.
    apply frames_bind; [apply frames_lift|]. intros decoded.
    apply frames_bind; [apply frames_lift|]. intros sourceUri.
    apply frames_bind; [apply frames_call|]. intros doc.
    apply frames_bind; [apply frames_call|]. intros editor.
    apply frames_bind; [apply frames_call|]. intros _.
    destruct editor; [|apply frames_ret].
    apply frames_bind; [apply frames_lift|]. intros anchor_position.
    apply frames_bind; [apply frames_lift|]. intros active_position.
    apply frames_tell.
  - unfold openDocumentLink. apply frames_catch; [apply frames_tryOpen|].
    intros _. unfold openFallback.
    destruct (String.eqb (path_extname host (args_path args)) "").
    + apply frames_tryOpen.
    + apply frames_bind; [apply frames_call | intros _; apply frames_ret].
  - unfold showPreviewSecuritySelector.
    destruct resource as [r|]; [|apply frames_selector_for_active].
    destruct (nonempty r); [|apply frames_selector_for_active].
    apply frames_bind; [apply frames_lift|]. intros parsed.
    apply frames_bind; [apply frames_lift|]. intros source.
    apply frames_tell.
  - unfold onPreviewStyleLoadError. apply frames_tell.
  - unfold onDidSaveTextDocument.
    destruct (isMarkdownFile host doc); [apply frames_tell | apply frames_ret].
  - unfold onDidChangeTextDocument.
    destruct (isMarkdownFile host doc); [apply frames_tell | apply frames_ret].
  - unfold onDidChangeConfiguration.
    apply frames_bind; [apply frames_tell | intros _; apply frames_tell].
  - unfold onDidChangeTextEditorSelection.
    destruct (isMarkdownFile host (document (textEditor event)));
      [|apply frames_ret].
    apply frames_bind; [apply frames_tell|]. intros _.
    destruct (selections event) as [|first others].
    + apply frames_throw.
    + apply frames_detach. apply frames_call.
Qed.

End Frames.

(** ** The order of activation *)

Section ActivationOrder.

Context {W : Type} (host : Host W).

Lemma walks_ret {A} (a : A) : walks host (ret a) a [].
Proof.
  intros s. repeat split.
Qed.

Lemma walks_tell c : walks host (tell host c) tt [c].
Proof.
  intros s. repeat split.
Qed.

Lemma walks_push d : walks host (push d) tt [].
Proof.
  intros s. repeat split.
Qed.

Lemma walks_set r : walks host (set_telemetryReporter r) tt [].
Proof.
  intros s. repeat split.
Qed.

Lemma walks_bind {A B} (m : M W A) (k : A -> M W B) a b l1 l2 :
  walks host m a l1 -> walks host (k a) b l2 -> walks host (bind m k) b (l1 ++ l2).
Proof.
  intros Hm Hk s.
  destruct (Hm s) as (Ho & Hc & Hw & Hp).
  rewrite (bind_run m k s a Ho).
  destruct (Hk (final (m s))) as (Ho' & Hc' & Hw' & Hp').
  cbn [outcome final calls fst snd].
  rewrite Hc, Hc', Hw', Hw, Hp', Hp. unfold replay. rewrite fold_left_app.
  split; [exact Ho'|]. repeat split.
Qed.

Lemma contribute_pending extension s :
  pending (final (contribute host extension s))
  = pending s ++ (if declares_plugins extension then [extension] else []).
Proof.
  unfold contribute, declares_plugins, contributed.
  destruct (and_prop_total (packageJSON extension) "contributes") as [c Hc].
  rewrite Hc, lift_bind.
  destruct (truthy c) eqn:Htruthy; simpl; [|rewrite app_nil_r; reflexivity].
  destruct (get_prop_truthy c "markdown.previewStyles" Htruthy) as [styles Hstyles].
  destruct (get_prop_truthy c "markdown.previewScripts" Htruthy) as [scripts Hscripts].
  destruct (get_prop_truthy c "markdown.markdownItPlugins" Htruthy) as [plugins Hplugins].
  rewrite Hstyles, Hscripts, Hplugins, lift_bind.
  assert (Hstyle : forall item, frames (register_style host extension item)).
  { intros item. unfold register_style. apply frames_catch.
    - apply frames_bind; [apply frames_lift | intros u; apply frames_call].
    - intros _. apply frames_ret. }
  assert (Hscript : forall item, frames (register_script host extension item)).
  { intros item. unfold register_script. apply frames_catch.
    - apply frames_bind; [apply frames_lift | intros u; apply frames_call].
    - intros _. apply frames_ret. }
  pose proof (block_run host CAddStyle (register_style host) extension styles
                (register_style_run host extension)
                (register_style_contained host extension) s)
    as (_ & Ho1 & _).
  cbv zeta in Ho1.
  rewrite (bind_run _ _ s tt Ho1).
  set (b1 := if truthy styles && Array_isArray styles
             then for_each (items_of styles) (register_style host extension)
             else ret tt) in *.
  assert (Hp1 : pending (final (b1 s)) = pending s).
  { subst b1. destruct (truthy styles && Array_isArray styles).
    - apply (frames_for_each (items_of styles) _ Hstyle s).
    - reflexivity. }
  rewrite lift_bind.
  pose proof (block_run host CAddScript (register_script host) extension scripts
                (register_script_run host extension)
                (register_script_contained host extension) (final (b1 s)))
    as (_ & Ho2 & _).
  cbv zeta in Ho2.
  rewrite (bind_run _ _ (final (b1 s)) tt Ho2).
  set (b2 := if truthy scripts && Array_isArray scripts
             then for_each (items_of scripts) (register_script host extension)
             else ret tt) in *.
  assert (Hp2 : pending (final (b2 (final (b1 s)))) = pending (final (b1 s))).
  { subst b2. destruct (truthy scripts && Array_isArray scripts).
    - apply (frames_for_each (items_of scripts) _ Hscript (final (b1 s))).
    - reflexivity. }
  rewrite lift_bind.
  cbn [outcome final calls fst snd].
  destruct (truthy plugins).
  - unfold bind, tell, enqueue.
    cbn [outcome final calls fst snd pending set_world].
    rewrite Hp2, Hp1. reflexivity.
  - cbn [ret final fst snd]. rewrite Hp2, Hp1, app_nil_r. reflexivity.
Qed.

Lemma loop_pending all s :
  pending (final (for_each all (contribute host) s))
  = pending s ++ filter declares_plugins all.
Proof.
  revert s. induction all as [|e all IH]; intros s.
  - simpl. rewrite app_nil_r. reflexivity.
  - destruct (contribute_run host e s) as (Ho & _).
    rewrite (for_each_cons e all (contribute host) s Ho).
    cbn [final fst snd]. rewrite IH, contribute_pending.
    simpl. destruct (declares_plugins e); simpl.
    + rewrite <- app_assoc. reflexivity.
    + rewrite app_nil_r. reflexivity.
Qed.

Lemma around_loop (k : M W unit) post :
  walks host k tt post ->
  around host
    (bind (gets (extensions_all host))
          (fun all => bind (for_each all (contribute host)) (fun _ => k)))
    [] post.
Proof.
  intros Hk s. rewrite gets_bind. cbn [replay fold_left app].
  destruct (loop_run host (extensions_all host (world s)) s) as (Ho & Hc & _).
  rewrite (bind_run _ _ s tt Ho).
  destruct (Hk (final (for_each (extensions_all host (world s)) (contribute host) s)))
    as (Ho' & Hc' & _ & Hp').
  cbn [outcome final calls fst snd].
  rewrite Hc, Hc', Hp', loop_pending.
  split; [exact Ho'|]. split; reflexivity.
Qed.

Lemma around_bind {A} (m : M W A) (k : A -> M W unit) a l1 pre post :
  walks host m a l1 ->
  around host (k a) pre post ->
  around host (bind m k) (l1 ++ pre) post.
Proof.
  intros Hm Hk s.
  destruct (Hm s) as (Ho & Hc & Hw & Hp).
  rewrite (bind_run m k s a Ho).
  destruct (Hk (final (m s))) as (Ho' & Hc' & Hp').
  cbn [outcome final calls fst snd].
  rewrite Hc, Hc', Hp', Hw, Hp. unfold replay. rewrite fold_left_app, <- app_assoc.
  split; [exact Ho'|]. split; reflexivity.
Qed.

Ltac walks_step :=
  lazymatch goal with
  | |- walks _ (ret _) _ _ => eapply walks_ret
  | |- walks _ (tell _ _) _ _ => eapply walks_tell
  | |- walks _ (push _) _ _ => eapply walks_push
  | |- walks _ (set_telemetryReporter _) _ _ => eapply walks_set
  | |- walks _ (bind _ _) _ _ =>
      eapply walks_bind; [walks_step | cbv beta iota; walks_step]
  end.

Ltac around_step :=
  lazymatch goal with
  | |- around _ (bind (gets _) _) _ _ => eapply around_loop; walks_step
  | |- around _ (bind _ _) _ _ =>
      eapply around_bind; [walks_step | cbv beta iota; around_step]
  end.

Lemma activate_around s :
  exists info,
    getPackageInfo host s = (Ok info, s, [])
    /\ outcome (activate host s) = Ok tt
    /\ calls (activate host s)
       = (reporter_calls info ++ prologue)
         ++ flat_map (contribution_calls host)
              (extensions_all host
                 (replay host (reporter_calls info ++ prologue) (world s)))
         ++ epilogue
    /\ pending (final (activate host s))
       = pending s
         ++ filter declares_plugins
              (extensions_all host
                 (replay host (reporter_calls info ++ prologue) (world s))).
Proof.
  destruct (getPackageInfo_run host s) as (info & Hg & _).
  exists info. split; [exact Hg|].
  unfold activate.
  rewrite (bind_run _ _ s info) by (rewrite Hg; reflexivity).
  rewrite Hg. cbn [final calls outcome fst snd app].
  unfold manager_register, register_command, listen.
  destruct info as [i|].
  - match goal with
    | |- context [outcome (?m s)] =>
        assert (H : exists pre post,
                   around host m pre post
                   /\ pre = reporter_calls (Some i) ++ prologue
                   /\ post = epilogue)
    end.
    { do 2 eexists. split; [around_step|]. split; reflexivity. }
    destruct H as (pre & post & Ha & -> & ->).
    apply (Ha s).
  - match goal with
    | |- context [outcome (?m s)] =>
        assert (H : exists pre post,
                   around host m pre post
                   /\ pre = reporter_calls None ++ prologue
                   /\ post = epilogue)
    end.
    { do 2 eexists. split; [around_step|]. split; reflexivity. }
    destruct H as (pre & post & Ha & -> & ->).
    apply (Ha s).
Qed.

(** [activate] makes its calls in one fixed order: the telemetry
    reporter if there is metadata, the six constructions and
    registrations of the prologue, then for every installed extension,
    in the host's order, its style registrations, its script
    registrations and its activation request, and only then the
    twenty-five constructions and registrations of the epilogue.  In
    particular the content provider is constructed and registered
    before the first style is added to it. *)
Theorem activate_call_order :
  forall s : State W,
  exists info : option IPackageInfo,
    getPackageInfo host s = (Ok info, s, [])
    /\ calls (activate host s)
       = (reporter_calls info ++ prologue)
         ++ flat_map (contribution_calls host)
              (extensions_all host
                 (replay host (reporter_calls info ++ prologue) (world s)))
         ++ epilogue.
Proof.
  intros s. destruct (activate_around s) as (info & Hg & _ & Hc & _).
  exists info. split; assumption.
Qed.

(** [activate] queues, behind what was queued before and in the host's
    order, exactly the installed extensions whose manifest declares a
    truthy [markdown.markdownItPlugins]; the callbacks themselves have
    not run when it returns. *)
Theorem activate_queues_plugin_extensions :
  forall s : State W,
  exists info : option IPackageInfo,
    getPackageInfo host s = (Ok info, s, [])
    /\ pending (final (activate host s))
       = pending s
         ++ filter declares_plugins
              (extensions_all host
                 (replay host (reporter_calls info ++ prologue) (world s)))
    /\ filter (fun c => match c with CAddPlugin _ => true | _ => false end)
              (calls (activate host s))
       = [].
Proof.
  intros s. destruct (activate_around s) as (info & Hg & _ & Hc & Hp).
  exists info. split; [exact Hg|]. split; [exact Hp|].
  rewrite Hc. rewrite !filter_app.
  assert (Hloop : forall all,
             filter (fun c => match c with CAddPlugin _ => true | _ => false end)
                    (flat_map (contribution_calls host) all) = []).
  { intros all. apply filter_none. intros c Hin.
    apply in_flat_map in Hin. destruct Hin as (e & _ & Hin).
    unfold contribution_calls, registrations_of in Hin.
    rewrite !in_app_iff in Hin. destruct Hin as [[Hin|Hin]|Hin].
    - apply in_flat_map in Hin. destruct Hin as (item & _ & Hin).
      unfold attempt in Hin.
      destruct (resolveExtensionResources host e item);
        [destruct Hin as [<-|[]]; reflexivity | destruct Hin].
    - apply in_flat_map in Hin. destruct Hin as (item & _ & Hin).
      unfold attempt in Hin.
      destruct (resolveExtensionResources host e item);
        [destruct Hin as [<-|[]]; reflexivity | destruct Hin].
    - destruct (declares_plugins e);
        [destruct Hin as [<-|[]]; reflexivity | destruct Hin]. }
  rewrite Hloop. destruct info; reflexivity.
Qed.

End ActivationOrder.

(** ** Settling the plugin activations *)

Section Settling.

Context {W : Type} (host : Host W).







End Settling.

(** ** More on the commands *)

Section CommandEdges.

Context {W : Type} (host : Host W).

(** The two ways the promise on another extension's activation can go
    besides the silent skip: when the activation is rejected the
    callback never runs and the promise is rejected with the host's
    error; when it is fulfilled and the exports carry a truthy
    [extendMarkdownIt], exactly one plugin is added to the engine. *)
Theorem plugin_promise_rejects_or_registers :
  (forall extension s err w1,
      extension_activate host extension (world s) = (Throw err, w1) ->
      plugin_promise host extension s = (Throw err, set_world s w1, []))
  /\ (forall extension s w1 props,
         extension_activate host extension (world s) = (Ok tt, w1) ->
         extension_exports host extension w1 = VObj props ->
         truthy (lookup_prop props "extendMarkdownIt") = true ->
         plugin_promise host extension s
         = (Ok tt,
            set_world s (notify host (CAddPlugin (id extension)) w1),
            [CAddPlugin (id extension)])).
Proof.
  split.
  - intros extension s err w1 Hact.
    unfold plugin_promise, bind, settle. rewrite Hact. reflexivity.
  - intros extension s w1 props Hact Hexports Hhook.
    unfold plugin_promise, onActivated, bind, settle. rewrite Hact. simpl.
    rewrite Hexports. simpl. rewrite Hhook. reflexivity.
Qed.

(** The link-click command touches the editor's selection only at the
    very end: if it sets a selection at all, then the document was
    opened and shown and the reveal command was executed before, in
    this order, the selection is the empty one at the start of line
    floor(line), and the command's promise is fulfilled. *)
Theorem didClick_selects_only_after_reveal :
  forall uri_arg line_arg (s : State W) editor sel,
    In (CSetSelection editor sel) (calls (didClick host uri_arg line_arg s)) ->
    outcome (didClick host uri_arg line_arg s) = Ok tt
    /\ sel = collapsed_at (Math_floor line_arg)
    /\ exists sourceUri doc,
         calls (didClick host uri_arg line_arg s)
         = [COpenTextDocument sourceUri;
            CShowTextDocument doc;
            CExecuteCommand (revealLine (Math_floor line_arg) "center");
            CSetSelection editor sel].
Proof.
  intros uri_arg line_arg s editor sel.
  unfold didClick, bind, call, tell.
  destruct (decodeURIComponent host uri_arg) as [decoded|e]; simpl;
    [|intros []].
  destruct (Uri_parse host (VStr decoded)) as [sourceUri|e]; simpl;
    [|intros []].
  destruct (openTextDocument host sourceUri (world s)) as [[doc|e] w1]; simpl;
    [|intros [H|[]]; discriminate].
  destruct (showTextDocument host doc w1) as [[ed|e] w2]; simpl;
    [|intros [H|[H|[]]]; discriminate].
  destruct (executeCommand host (revealLine (Math_floor line_arg) "center") w2)
    as [[[]|e] w3]; simpl;
    [|intros [H|[H|[H|[]]]]; discriminate].
  destruct ed as [ed|]; simpl.
  - destruct (new_Position (Math_floor line_arg) (num 0)) as [position|e] eqn:Hposition;
      simpl.
    + assert (Hstart : position = mkPosition (Math_floor line_arg) (num 0)).
      { unfold new_Position in Hposition.
        destruct (negative (Math_floor line_arg)); [discriminate|].
        destruct (negative (num 0)); [discriminate|].
        injection Hposition as <-. reflexivity. }
      intros [H|[H|[H|[H|[]]]]]; try discriminate.
      injection H as <- <-. subst position.
      split; [reflexivity|]. split; [reflexivity|].
      exists sourceUri, doc. reflexivity.
    + intros [H|[H|[H|[]]]]; discriminate.
  - intros [H|[H|[H|[]]]]; discriminate.
Qed.

(** A link-click with a URI argument that cannot be decoded, or whose
    decoded text cannot be parsed, fails with that error before any
    call is made; the state is untouched. *)
Theorem didClick_malformed_uri_calls_nothing :
  forall uri_arg line_arg (s : State W) e,
    (decodeURIComponent host uri_arg = Throw e
     \/ exists decoded,
          decodeURIComponent host uri_arg = Ok decoded
          /\ Uri_parse host (VStr decoded) = Throw e) ->
    didClick host uri_arg line_arg s = (Throw e, s, []).
Proof.
  intros uri_arg line_arg s e [Hd|(decoded & Hd & Hp)];
    unfold didClick, bind; simpl; rewrite Hd; simpl.
  - reflexivity.
  - rewrite Hp. reflexivity.
Qed.

(** When the active editor does not show the markdown document at the
    payload's path, the document-link command opens the file URI of the
    path, shows the document, and looks the fragment up in the document
    of the editor the host returned; the line found is revealed at the
    top of that editor, and NaN reveals nothing. *)
Theorem openDocumentLink_opens_then_reveals :
  forall args (s : State W) doc editor l w1 w2 w3,
    shows host (args_path args) (activeTextEditor host (world s)) = false ->
    openTextDocument host (Uri_file host (args_path args)) (world s) = (Ok doc, w1) ->
    showTextDocument host doc w1 = (Ok (Some editor), w2) ->
    nonempty (args_fragment args) = true ->
    toc_lookup host (document editor) (args_fragment args) w2 = (Ok l, w3) ->
    calls (openDocumentLink host args s)
    = [COpenTextDocument (Uri_file host (args_path args));
       CShowTextDocument doc;
       CTocLookup (document editor) (args_fragment args)]
      ++ (if isNaN l then []
          else [CRevealRange editor (mkRange l (num 0) l (num 0)) AtTop])
    /\ outcome (openDocumentLink host args s) = Ok tt.
Proof.
  intros args s doc editor l w1 w2 w3 Hshows Hopen Hshow Hfrag Hlookup.
  unfold openDocumentLink, catch, tryOpen, bind. simpl.
  rewrite Hshows. unfold call. rewrite Hopen. simpl. rewrite Hshow. simpl.
  rewrite Hfrag. unfold bind, call. simpl. rewrite Hlookup. simpl.
  destruct (isNaN l); split; reflexivity.
Qed.

Lemma tryRevealLine_calls args editor s :
  Forall (fun c =>
            match c with
            | CTocLookup _ f => f = args_fragment args /\ nonempty f = true
            | CRevealRange _ r how =>
                how = AtTop
                /\ nonempty (args_fragment args) = true
                /\ isNaN (startLine r) = false
                /\ r = mkRange (startLine r) (num 0) (startLine r) (num 0)
            | _ => False
            end)
         (calls (tryRevealLine host args editor s)).
Proof.
  unfold tryRevealLine. destruct editor as [ed|]; [|constructor].
  destruct (nonempty (args_fragment args)) eqn:Hfrag; [|constructor].
  unfold bind, call, tell.
  destruct (toc_lookup host (document ed) (args_fragment args) (world s))
    as [[l|e] w1]; simpl.
  - destruct (isNaN l) eqn:Hnan; simpl; repeat constructor; assumption.
  - repeat constructor; assumption.
Qed.

Lemma tryOpen_calls args p s :
  Forall (attempt_call_allowed host args p) (calls (tryOpen host args p s))
  /\ (length (filter is_open (calls (tryOpen host args p s))) <= 1)%nat.
Proof.
  assert (Hreveal : forall editor s',
             Forall (attempt_call_allowed host args p)
                    (calls (tryRevealLine host args editor s'))
             /\ filter is_open (calls (tryRevealLine host args editor s')) = []).
  { intros editor s'. pose proof (tryRevealLine_calls args editor s') as H.
    split.
    - eapply Forall_impl; [|exact H]. intros c Hc.
      destruct c; try contradiction; exact Hc.
    - apply filter_none. intros c Hin.
      rewrite Forall_forall in H. specialize (H c Hin).
      destruct c; try contradiction; reflexivity. }
  unfold tryOpen. rewrite gets_bind.
  destruct (shows host p (activeTextEditor host (world s))).
  - destruct (Hreveal (activeTextEditor host (world s)) s) as [Hall Hnone].
    split; [exact Hall|]. rewrite Hnone. simpl. lia.
  - unfold bind, call.
    destruct (openTextDocument host (Uri_file host p) (world s)) as [[doc|e] w1];
      simpl; [|split; [repeat constructor | lia]].
    destruct (showTextDocument host doc w1) as [[editor|e] w2];
      simpl; [|split; [repeat constructor | lia]].
    destruct (Hreveal editor (set_world (set_world s w1) w2)) as [Hall Hnone].
    destruct (tryRevealLine host args editor (set_world (set_world s w1) w2))
      as [[r s3] l3].
    cbn [calls snd app] in *.
    split.
    + repeat constructor. exact Hall.
    + simpl. rewrite Hnone. simpl. lia.
Qed.

Lemma openDocumentLink_calls args s :
  Forall (link_call_allowed host args) (calls (openDocumentLink host args s))
  /\ (length (filter is_open (calls (openDocumentLink host args s))) <= 2)%nat.
Proof.
  assert (Hfirst : forall c,
             attempt_call_allowed host args (args_path args) c ->
             link_call_allowed host args c).
  { intros c. destruct c; simpl; auto; intros []. }
  destruct (tryOpen_calls args (args_path args) s) as [Hall Hlen].
  unfold openDocumentLink, catch.
  destruct (tryOpen host args (args_path args) s) as [[[[]|e] s1] l1];
    cbn [calls snd] in *.
  - split; [eapply Forall_impl; [exact Hfirst | exact Hall] | lia].
  - unfold openFallback.
    destruct (String.eqb (path_extname host (args_path args)) "") eqn:Hext.
    + apply String.eqb_eq in Hext.
      destruct (tryOpen_calls args (args_path args ++ ".md") s1) as [Hall2 Hlen2].
      destruct (tryOpen host args (args_path args ++ ".md") s1) as [[r s2] l2].
      cbn [calls snd] in *. split.
      * apply Forall_app. split.
        -- eapply Forall_impl; [exact Hfirst | exact Hall].
        -- eapply Forall_impl; [|exact Hall2].
           intros c. destruct c; simpl; auto; intros [].
      * rewrite filter_app, length_app. lia.
    + apply String.eqb_neq in Hext.
      unfold bind, call.
      destruct (executeCommand host (vscode_open (Uri_file host (args_path args)))
                               (world s1)) as [[[]|e'] w2];
        cbn [calls snd ret fst app].
      * split.
        -- apply Forall_app. split.
           ++ eapply Forall_impl; [exact Hfirst | exact Hall].
           ++ repeat constructor. exact Hext.
        -- rewrite ?app_nil_r, filter_app, length_app. simpl. lia.
      * split.
        -- apply Forall_app. split.
           ++ eapply Forall_impl; [exact Hfirst | exact Hall].
           ++ repeat constructor. exact Hext.
        -- rewrite filter_app, length_app. simpl. lia.
Qed.

(** Whatever the host answers, the document-link command opens nothing
    but the file URI of the given path and, for a path without
    extension, of the path with [.md] appended; it asks for the generic
    open only of the given path and only when that path has an
    extension; it looks up nothing but the payload's fragment, reveals
    only at the top and never a NaN line; and it makes at most two
    attempts to open a document. *)
Theorem openDocumentLink_stays_on_target :
  forall args (s : State W),
    Forall (link_call_allowed host args) (calls (openDocumentLink host args s))
    /\ (length (filter is_open (calls (openDocumentLink host args s))) <= 2)%nat.
Proof.
  intros args s. apply openDocumentLink_calls.
Qed.

(** A document link without a fragment never consults the table of
    contents and never scrolls, on the first attempt or on the
    fallback. *)
Theorem openDocumentLink_without_fragment_never_reveals :
  forall args (s : State W),
    args_fragment args = "" ->
    filter is_lookup_or_reveal (calls (openDocumentLink host args s)) = [].
Proof.
  intros args s Hfrag. apply filter_none. intros c Hin.
  destruct (openDocumentLink_calls args s) as [Hall _].
  rewrite Forall_forall in Hall. specialize (Hall c Hin).
  destruct c; simpl in *; try reflexivity.
  - destruct Hall as [-> Hne]. rewrite Hfrag in Hne. discriminate.
  - destruct Hall as (_ & Hne & _). rewrite Hfrag in Hne. discriminate.
Qed.

End CommandEdges.

(** ** The remaining handlers and helpers *)

Section Helpers.

Context {W : Type} (host : Host W).

Lemma nonempty_false (str : string) : nonempty str = false -> str = "".
Proof.
  destruct str; [reflexivity | discriminate].
Qed.

Lemma lookup_prop_missing props key :
  (forall v, ~ In (key, v) props) -> lookup_prop props key = VUndefined.
Proof.
  induction props as [|[k v] props IH]; intros Hmissing; simpl.
  - reflexivity.
  - destruct (String.eqb k key) eqn:E.
    + apply String.eqb_eq in E. subst k.
      exfalso. apply (Hmissing v). left. reflexivity.
    + apply IH. intros v' Hin. apply (Hmissing v'). right. exact Hin.
Qed.

(** [resolveExtensionResources] succeeds in two ways only: with the
    parsed URI, which then has a scheme, or with the file URI of the
    install directory joined with a string path whose parse has no
    scheme.  It fails in two ways only: with the parser's error, or
    with a [TypeError] when the parse has no scheme and the item is not
    a string. *)
Theorem resolveExtensionResources_inversion :
  forall extension stylePath,
    (forall resource,
        resolveExtensionResources host extension stylePath = Ok resource ->
        (Uri_parse host stylePath = Ok resource /\ nonempty (scheme resource) = true)
        \/ exists parsed p,
             Uri_parse host stylePath = Ok parsed
             /\ scheme parsed = ""
             /\ stylePath = VStr p
             /\ resource = Uri_file host (path_join host (extensionPath extension) p))
    /\ (forall e,
           resolveExtensionResources host extension stylePath = Throw e ->
           Uri_parse host stylePath = Throw e
           \/ exists parsed,
                Uri_parse host stylePath = Ok parsed
                /\ scheme parsed = ""
                /\ (forall p, stylePath <> VStr p)
                /\ e = TypeError "Path must be a string").
Proof.
  intros extension stylePath. unfold resolveExtensionResources.
  destruct (Uri_parse host stylePath) as [parsed|e0]; simpl.
  - destruct (nonempty (scheme parsed)) eqn:Hscheme.
    + split.
      * intros resource H. injection H as <-. left. split; [reflexivity | exact Hscheme].
      * intros e H. discriminate.
    + apply nonempty_false in Hscheme. split.
      * intros resource H. right.
        destruct stylePath as [| |b|n|p|items|props|f]; simpl in H; try discriminate.
        injection H as <-. exists parsed, p. repeat split. exact Hscheme.
      * intros e H. right. exists parsed.
        destruct stylePath as [| |b|n|p|items|props|f]; simpl in H; try discriminate;
          injection H as <-; repeat split; try exact Hscheme;
          intros p'; discriminate.
  - split.
    + intros resource H. discriminate.
    + intros e H. injection H as <-. left. reflexivity.
Qed.

(** [getPackageInfo] makes no call and changes nothing.  It yields null
    when the markdown extension is not installed or its manifest is
    falsy; for an object manifest it yields the record of the
    manifest's [name], [version] and [aiKey], where a missing key gives
    an undefined field and not null. *)
Theorem getPackageInfo_reads_the_manifest :
  (forall s,
      extensions_getExtension host "Microsoft.vscode-markdown" (world s) = None ->
      getPackageInfo host s = (Ok None, s, []))
  /\ (forall s e,
         extensions_getExtension host "Microsoft.vscode-markdown" (world s) = Some e ->
         truthy (packageJSON e) = false ->
         getPackageInfo host s = (Ok None, s, []))
  /\ (forall s e props,
         extensions_getExtension host "Microsoft.vscode-markdown" (world s) = Some e ->
         packageJSON e = VObj props ->
         getPackageInfo host s
         = (Ok (Some (mkPackageInfo (lookup_prop props "name")
                                    (lookup_prop props "version")
                                    (lookup_prop props "aiKey"))),
            s, [])
         /\ ((forall v, ~ In ("aiKey", v) props) ->
             lookup_prop props "aiKey" = VUndefined)).
Proof.
  split; [|split].
  - intros s Hnone. unfold getPackageInfo. rewrite gets_bind, Hnone. reflexivity.
  - intros s e Hsome Hfalsy. unfold getPackageInfo.
    rewrite gets_bind, Hsome, Hfalsy. reflexivity.
  - intros s e props Hsome Hobj. split.
    + unfold getPackageInfo. rewrite gets_bind, Hsome, Hobj. reflexivity.
    + apply lookup_prop_missing.
Qed.

(** The security-selector command with a resource takes its target from
    the resource alone, namely the parse of the query of the parsed
    resource, whatever editor is active; without a resource, or with
    the empty string, it shows the selector for the active editor's
    document exactly when that document's language id is [markdown];
    and whenever it fails it has made no call. *)
Theorem showPreviewSecuritySelector_target :
  (forall r s parsed source,
      nonempty r = true ->
      Uri_parse host (VStr r) = Ok parsed ->
      Uri_parse host (VStr (query parsed)) = Ok source ->
      calls (showPreviewSecuritySelector host (Some r) s)
      = [CShowSecuritySelector source]
      /\ outcome (showPreviewSecuritySelector host (Some r) s) = Ok tt)
  /\ (forall r s1 s2,
         nonempty r = true ->
         calls (showPreviewSecuritySelector host (Some r) s1)
         = calls (showPreviewSecuritySelector host (Some r) s2)
         /\ outcome (showPreviewSecuritySelector host (Some r) s1)
            = outcome (showPreviewSecuritySelector host (Some r) s2))
  /\ (forall resource s,
         resource = None \/ resource = Some "" ->
         calls (showPreviewSecuritySelector host resource s)
         = match activeTextEditor host (world s) with
           | Some ed =>
               if String.eqb (languageId (document ed)) "markdown"
               then [CShowSecuritySelector (uri (document ed))]
               else []
           | None => []
           end
         /\ outcome (showPreviewSecuritySelector host resource s) = Ok tt)
  /\ (forall resource s e,
         outcome (showPreviewSecuritySelector host resource s) = Throw e ->
         calls (showPreviewSecuritySelector host resource s) = []).
Proof.
  assert (Hactive : forall s,
             let m := (active_editor <- gets (activeTextEditor host) ;;
                       match active_editor with
                       | Some ed =>
                           if String.eqb (languageId (document ed)) "markdown"
                           then tell host (CShowSecuritySelector (uri (document ed)))
                           else ret tt
                       | None => ret tt
                       end) in
             calls (m s)
             = match activeTextEditor host (world s) with
               | Some ed =>
                   if String.eqb (languageId (document ed)) "markdown"
                   then [CShowSecuritySelector (uri (document ed))]
                   else []
               | None => []
               end
             /\ outcome (m s) = Ok tt).
  { intros s m. subst m. rewrite gets_bind.
    destruct (activeTextEditor host (world s)) as [ed|]; [|split; reflexivity].
    destruct (String.eqb (languageId (document ed)) "markdown"); split; reflexivity. }
  split; [|split; [|split]].
  - intros r s parsed source Hr Hp Hq.
    unfold showPreviewSecuritySelector. rewrite Hr, Hp, lift_bind, Hq, lift_bind.
    split; reflexivity.
  - intros r s1 s2 Hr. unfold showPreviewSecuritySelector. rewrite Hr.
    destruct (Uri_parse host (VStr r)) as [parsed|e]; [|split; reflexivity].
    rewrite !lift_bind.
    destruct (Uri_parse host (VStr (query parsed))) as [source|e];
      [|split; reflexivity].
    rewrite !lift_bind. split; reflexivity.
  - intros resource s [->| ->]; unfold showPreviewSecuritySelector; simpl nonempty;
      cbv iota; apply (Hactive s).
  - intros resource s e. unfold showPreviewSecuritySelector.
    destruct resource as [r|].
    + destruct (nonempty r).
      * destruct (Uri_parse host (VStr r)) as [parsed|e1]; [|reflexivity].
        rewrite lift_bind.
        destruct (Uri_parse host (VStr (query parsed))) as [source|e2]; [|reflexivity].
        rewrite lift_bind. discriminate.
      * destruct (Hactive s) as [_ Ho]. cbv zeta in Ho. rewrite Ho. discriminate.
    + destruct (Hactive s) as [_ Ho]. cbv zeta in Ho. rewrite Ho. discriminate.
Qed.

(** The selection listener does not wait for the preview: when posting
    the message is rejected the listener still returns normally and the
    rejection is left unhandled, added behind the earlier ones; when it
    is fulfilled nothing is added.  Should an event carry no selection
    at all, the listener logs it and then throws a [TypeError] without
    executing any command. *)
Theorem selection_listener_does_not_wait :
  (forall editor first others s r w,
      isMarkdownFile host (document editor) = true ->
      let preview := getMarkdownUri host (uri (document editor)) in
      executeCommand host
        (htmlPreview_postMessage preview (line (active first)))
        (notify host
           (CLoggerLog "updatePreviewForSelection" (Uri_toString host preview))
           (world s))
      = (r, w) ->
      let run := onDidChangeTextEditorSelection host
                   (mkSelectionChangeEvent editor (first :: others)) s in
      outcome run = Ok tt
      /\ unhandled (final run)
         = unhandled s ++ match r with
                          | Ok _ => []
                          | Throw e => [e]
                          end)
  /\ (forall editor s,
         isMarkdownFile host (document editor) = true ->
         let preview := getMarkdownUri host (uri (document editor)) in
         let run := onDidChangeTextEditorSelection host
                      (mkSelectionChangeEvent editor []) s in
         outcome run = Throw (TypeError "Cannot read property 'active' of undefined")
         /\ calls run
            = [CLoggerLog "updatePreviewForSelection" (Uri_toString host preview)]).
Proof.
  split.
  - intros editor first others s r w Hmd preview Hexec run. subst run preview.
    unfold onDidChangeTextEditorSelection. simpl. rewrite Hmd.
    unfold bind, tell, detach, call. simpl. rewrite Hexec.
    destruct r as [[]|e]; simpl.
    + rewrite app_nil_r. split; reflexivity.
    + split; reflexivity.
  - intros editor s Hmd preview run. subst run preview.
    unfold onDidChangeTextEditorSelection. simpl. rewrite Hmd.
    split; reflexivity.
Qed.

End Helpers.

(** ** Activation followed by settling *)

Section Pipeline.

Context {W : Type} (host : Host W).


End Pipeline.

(** [themed] declares the hook and exports it: after activation and
    settling, its plugin, and only its plugin, has been added. *)
Example themed_plugin_is_added :
  calls (drain Demo.host (final (activate Demo.host (Demo.initial Demo.hooked))))
  = [CAddPlugin "acme.themed"].
Proof.
  reflexivity.
Qed.


Lemma plugin_promise_rejects_or_registers_witness :
  plugin_promise Demo.host Demo.themed (Demo.initial Demo.broken_plugin)
  = (Throw (HostError "activation failed"), Demo.initial Demo.broken_plugin, [])
  /\ plugin_promise Demo.host Demo.themed (Demo.initial Demo.hooked)
     = (Ok tt, Demo.initial Demo.hooked, [CAddPlugin "acme.themed"]).
Proof.
  split.
  - apply (proj1 (plugin_promise_rejects_or_registers Demo.host)
             Demo.themed (Demo.initial Demo.broken_plugin)
             (HostError "activation failed") Demo.broken_plugin).
    reflexivity.
  - apply (proj2 (plugin_promise_rejects_or_registers Demo.host)
             Demo.themed (Demo.initial Demo.hooked) Demo.hooked
             [("extendMarkdownIt", VFun "extendMarkdownIt")]);
      reflexivity.
Defined.

Lemma didClick_selects_only_after_reveal_witness :
  outcome (didClick Demo.host "file:///a/c.md" (Fin (9 # 4))
             (Demo.initial Demo.library))
  = Ok tt.
Proof.
  apply (didClick_selects_only_after_reveal Demo.host
           "file:///a/c.md" (Fin (9 # 4)) (Demo.initial Demo.library)
           (mkTextEditor (mkTextDocument (Demo.file "/a/c.md") "markdown") 1)
           (collapsed_at (num 2))).
  simpl. right. right. right. left. reflexivity.
Defined.

Lemma didClick_malformed_uri_calls_nothing_witness :
  didClick Demo.host "file:///a/%E0%A4%A.md" (num 1) (Demo.initial Demo.library)
  = (Throw (URIError "URI malformed"), Demo.initial Demo.library, []).
Proof.
  apply (didClick_malformed_uri_calls_nothing Demo.host).
  left. reflexivity.
Defined.

Lemma openDocumentLink_opens_then_reveals_witness :
  calls (openDocumentLink Demo.host (mkOpenDocumentLinkArgs "/a/c.md" "sec1")
           (Demo.initial Demo.library))
  = [COpenTextDocument (Demo.file "/a/c.md");
     CShowTextDocument (mkTextDocument (Demo.file "/a/c.md") "markdown");
     CTocLookup (mkTextDocument (Demo.file "/a/c.md") "markdown") "sec1";
     CRevealRange
       (mkTextEditor (mkTextDocument (Demo.file "/a/c.md") "markdown") 1)
       (mkRange (num 12) (num 0) (num 12) (num 0)) AtTop].
Proof.
  apply (openDocumentLink_opens_then_reveals Demo.host
           (mkOpenDocumentLinkArgs "/a/c.md" "sec1") (Demo.initial Demo.library)
           (mkTextDocument (Demo.file "/a/c.md") "markdown")
           (mkTextEditor (mkTextDocument (Demo.file "/a/c.md") "markdown") 1)
           (num 12)
           Demo.library
           (Demo.mkWorld ["/a/c.md"]
              (Some (mkTextEditor (mkTextDocument (Demo.file "/a/c.md") "markdown") 1))
              [("sec1", num 12)] [] [] [] [] [])
           (Demo.mkWorld ["/a/c.md"]
              (Some (mkTextEditor (mkTextDocument (Demo.file "/a/c.md") "markdown") 1))
              [("sec1", num 12)] [] [] [] [] []));
    reflexivity.
Defined.

Lemma openDocumentLink_without_fragment_never_reveals_witness :
  filter is_lookup_or_reveal
    (calls (openDocumentLink Demo.host (mkOpenDocumentLinkArgs "/a/c" "")
              (Demo.initial Demo.library)))
  = [].
Proof.
  apply (openDocumentLink_without_fragment_never_reveals Demo.host
           (mkOpenDocumentLinkArgs "/a/c" "") (Demo.initial Demo.library)).
  reflexivity.
Defined.

Lemma resolveExtensionResources_inversion_witness :
  (Uri_parse Demo.host (VStr "media/a.css")
   = Ok (Demo.file "/ext/themed/media/a.css")
   /\ nonempty (scheme (Demo.file "/ext/themed/media/a.css")) = true)
  \/ exists parsed p,
       Uri_parse Demo.host (VStr "media/a.css") = Ok parsed
       /\ scheme parsed = ""
       /\ VStr "media/a.css" = VStr p
       /\ Demo.file "/ext/themed/media/a.css"
          = Uri_file Demo.host (path_join Demo.host (extensionPath Demo.themed) p).
Proof.
  apply (proj1 (resolveExtensionResources_inversion Demo.host Demo.themed
                  (VStr "media/a.css"))
           (Demo.file "/ext/themed/media/a.css")).
  reflexivity.
Defined.

Lemma getPackageInfo_reads_the_manifest_witness :
  getPackageInfo Demo.host (Demo.initial Demo.self_installed)
  = (Ok (Some (mkPackageInfo (VStr "markdown") (VStr "1.0.0") VUndefined)),
     Demo.initial Demo.self_installed, [])
  /\ getPackageInfo Demo.host (Demo.initial Demo.hooked)
     = (Ok None, Demo.initial Demo.hooked, []).
Proof.
  split.
  - apply (proj2 (proj2 (getPackageInfo_reads_the_manifest Demo.host))
             (Demo.initial Demo.self_installed)
             (mkExtension "Microsoft.vscode-markdown" "/ext/markdown"
                (VObj [("name", VStr "markdown"); ("version", VStr "1.0.0")]))
             [("name", VStr "markdown"); ("version", VStr "1.0.0")]);
      reflexivity.
  - apply (proj1 (getPackageInfo_reads_the_manifest Demo.host)
             (Demo.initial Demo.hooked)).
    reflexivity.
Defined.

Lemma showPreviewSecuritySelector_target_witness :
  calls (showPreviewSecuritySelector Demo.host
           (Some "markdown:/a/b.md.rendered?file:///a/b.md")
           (Demo.initial Demo.library))
  = [CShowSecuritySelector (Demo.file "/a/b.md")]
  /\ calls (showPreviewSecuritySelector Demo.host None
              (Demo.initial Demo.viewing_guide))
     = [CShowSecuritySelector (Demo.file "/a/b.md")].
Proof.
  split.
  - apply (proj1 (showPreviewSecuritySelector_target Demo.host)
             "markdown:/a/b.md.rendered?file:///a/b.md"
             (Demo.initial Demo.library)
             (mkUri "markdown" "" "/a/b.md.rendered" "file:///a/b.md" "")
             (Demo.file "/a/b.md"));
      reflexivity.
  - apply (proj1 (proj2 (proj2 (showPreviewSecuritySelector_target Demo.host)))
             None (Demo.initial Demo.viewing_guide)).
    left. reflexivity.
Defined.

Lemma selection_listener_does_not_wait_witness :
  unhandled
    (final (onDidChangeTextEditorSelection Demo.host_without_preview
              (mkSelectionChangeEvent Demo.guide_editor
                 [collapsed_at (num 4)])
              (Demo.initial Demo.viewing_guide)))
  = [HostError "no preview"].
Proof.
  apply (proj1 (selection_listener_does_not_wait Demo.host_without_preview)
           Demo.guide_editor (collapsed_at (num 4)) []
           (Demo.initial Demo.viewing_guide)
           (Throw (HostError "no preview")) Demo.viewing_guide);
    reflexivity.
Defined.
